(** * Financial Report Generator: a shallow embedding and its properties

    The three scripts of [Financial_Report_Generator] (enterprise, plain,
    tabulate) are embedded as Rocq functions.  Python floats are IEEE 754
    binary64 values ([spec_float] at precision 53), a [str] is the UTF-8
    encoding of its characters, effects (logging calls,
    printed lines, exceptions, [sys.exit]) are explicit: every function
    returns the trace of events it emits together with its outcome, and a
    generator is a finite lazy sequence whose every pull carries the events
    of that pull. *)

From Stdlib Require Import ZArith List String Ascii Bool Arith Lia.
From Stdlib Require Import Floats.SpecFloat.
Import ListNotations.

#[local] Set Warnings "-register-all".

Local Open Scope string_scope.
Local Open Scope list_scope.

(** ** Python values, exceptions and the builtin [float] *)

Module Py.

(** [float] is binary64. *)
Definition prec : Z := 53.
Definition emax : Z := 1024.

Definition float := spec_float.

Definition feqb : float -> float -> bool := SFeqb.
Definition fltb : float -> float -> bool := SFltb.
Definition fdiv : float -> float -> float := SFdiv prec emax.
Definition fadd : float -> float -> float := SFadd prec emax.

Definition fzero : float := S754_zero false.

Definition is_nan (x : float) : bool :=
  match x with
  | S754_nan => true
  | _ => false
  end.

(** A float object.  [x is y] matters to these scripts in one place, the
    comparison of two records, and can hold of the fields of two records
    in one way only: [json.load] hands out one and the same object,
    [json.decoder.NaN], for every [NaN] of a document, and [float(x)]
    returns a float [x] itself.  Every other float is an object of its
    own: the one [float] builds from text, an int or a bool, and the one
    the decoder builds for each number of a document.  (The decoder's two
    infinities are shared as well, but equal infinities are [==] anyway.) *)
Inductive float_object :=
| Fresh (v : float)
| DecoderNaN.

Definition value (x : float_object) : float :=
  match x with
  | Fresh v => v
  | DecoderNaN => S754_nan
  end.

(** [x is y], for the fields of two different records. *)
Definition same_object (x y : float_object) : bool :=
  match x, y with
  | DecoderNaN, DecoderNaN => true
  | _, _ => false
  end.

(** The object a float of a decoded document is. *)
Definition document_float (f : float) : float_object :=
  if is_nan f then DecoderNaN else Fresh f.

Definition is_finite (x : float) : bool :=
  match x with
  | S754_zero _ | S754_finite _ _ _ => true
  | S754_infinity _ | S754_nan => false
  end.

(** The nearest binary64 (ties to even) of the integer [z]; an infinity
    when [z] is out of range. *)
Definition round_Z (z : Z) : float := binary_normalize prec emax z 0 false.

(** The nearest binary64 of [(-1)^s * m * 10^e], as CPython's correctly
    rounded [strtod] computes it.  A negative exponent is a division of
    two exact integers, rounded once. *)
Definition of_decimal (s : bool) (m : Z) (e : Z) : float :=
  match m with
  | Zpos p =>
      match e with
      | Zneg k => SFdiv prec emax (S754_finite s p 0)
                                  (S754_finite false (Pos.pow 10 k) 0)
      | _ => binary_round prec emax s (p * Z.to_pos (10 ^ e)) 0
      end
  | _ => S754_zero s
  end.

(** Exceptions derived from [Exception] that the scripts can meet. *)
Inductive Exn :=
| ValueError
| TypeError
| OverflowError
| ZeroDivisionError
| FileNotFoundError
| PermissionError
| UnicodeDecodeError
| CsvError
| JSONDecodeError.

(** What unwinds the stack: an exception, or [SystemExit] raised by
    [sys.exit(code)], which [except Exception] does not catch. *)
Inductive Raised :=
| Exc (e : Exn)
| SysExit (code : Z).

Inductive Result (A : Type) :=
| Ok (a : A)
| Raise (e : Exn).
Arguments Ok {A} a.
Arguments Raise {A} e.

(** The values a raw field can hold: a cell of a CSV row is a [str], an
    item of a decoded JSON document is any of these.  A [dict] keeps its
    keys in insertion order.  A NaN of a document is the decoder's one NaN
    object; a document has no other NaN. *)
Inductive Val :=
| VNone
| VBool (b : bool)
| VInt (z : Z)
| VFloat (f : float)
| VStr (s : string)
| VList (l : list Val)
| VDict (d : list (string * Val)).

(** *** The characters of a [str]

    A [string] holds the UTF-8 encoding of the text.  A byte that is not
    part of a well-formed sequence stands for U+FFFD, which is neither a
    digit nor a space. *)

Definition continuation (n : N) : bool := ((128 <=? n) && (n <=? 191))%N.

Fixpoint decode_utf8 (l : list ascii) : list N :=
  let bad := 65533%N in
  match l with
  | [] => []
  | b0 :: t =>
      let n0 := N_of_ascii b0 in
      if (n0 <? 128)%N then n0 :: decode_utf8 t
      else
        match t with
        | b1 :: t1 =>
            let n1 := N_of_ascii b1 in
            if ((194 <=? n0) && (n0 <=? 223))%N && continuation n1 then
              ((n0 - 192) * 64 + (n1 - 128))%N :: decode_utf8 t1
            else
              match t1 with
              | b2 :: t2 =>
                  let n2 := N_of_ascii b2 in
                  let c3 := ((n0 - 224) * 4096 + (n1 - 128) * 64 + (n2 - 128))%N in
                  if ((224 <=? n0) && (n0 <=? 239))%N && continuation n1
                     && continuation n2 && (2048 <=? c3)%N
                  then c3 :: decode_utf8 t2
                  else
                    match t2 with
                    | b3 :: t3 =>
                        let n3 := N_of_ascii b3 in
                        let c4 := ((n0 - 240) * 262144 + (n1 - 128) * 4096
                                   + (n2 - 128) * 64 + (n3 - 128))%N in
                        if ((240 <=? n0) && (n0 <=? 244))%N && continuation n1
                           && continuation n2 && continuation n3
                           && ((65536 <=? c4) && (c4 <=? 1114111))%N
                        then c4 :: decode_utf8 t3
                        else bad :: decode_utf8 t
                    | [] => bad :: decode_utf8 t
                    end
              | [] => bad :: decode_utf8 t
              end
        | [] => [bad]
        end
  end.

(** The characters beyond ASCII that are whitespace. *)
Definition unicode_space (c : N) : bool :=
  existsb (N.eqb c)
    [133; 160; 5760; 8232; 8233; 8239; 8287; 12288]%N
  || ((8192 <=? c) && (c <=? 8202))%N.

(** The digit zero of every decimal digit set beyond ASCII, as the Unicode
    database of CPython 3.11 has them (Unicode 14.0); the nine characters
    after each are its digits one to nine. *)
Definition unicode_zeros : list N :=
  [1632; 1776; 1984; 2406; 2534; 2662; 2790; 2918; 3046; 3174; 3302;
   3430; 3558; 3664; 3792; 3872; 4160; 4240; 6112; 6160; 6470; 6608;
   6784; 6800; 6992; 7088; 7232; 7248; 42528; 43216; 43264; 43472;
   43504; 43600; 44016; 65296; 66720; 68912; 69734; 69872; 69942;
   70096; 70384; 70736; 70864; 71248; 71360; 71472; 71904; 72016;
   72784; 73040; 73120; 92768; 92864; 93008; 120782; 120792; 120802;
   120812; 120822; 123200; 123632; 125264; 130032]%N.

Definition unicode_decimal (c : N) : option N :=
  match find (fun z => (z <=? c) && (c <? z + 10))%N unicode_zeros with
  | Some z => Some (c - z)%N
  | None => None
  end.

(** What [float] does to a [str] first: a text that is not all ASCII has
    its spaces beyond ASCII turned into blanks and its decimal digits into
    ASCII digits, and is cut after the first other character beyond
    ASCII, which becomes a question mark. *)
Fixpoint transform_decimal_and_space (cs : list N) : list ascii :=
  match cs with
  | [] => []
  | c :: t =>
      if (c <? 127)%N then ascii_of_N c :: transform_decimal_and_space t
      else if unicode_space c then " "%char :: transform_decimal_and_space t
      else
        match unicode_decimal c with
        | Some d => ascii_of_N (48 + d) :: transform_decimal_and_space t
        | None => ["?"%char]
        end
  end.

Definition ascii_text (s : string) : list ascii :=
  let cs := decode_utf8 (list_ascii_of_string s) in
  if forallb (fun c => c <? 128)%N cs then map ascii_of_N cs
  else transform_decimal_and_space cs.

(** *** [float(str)]

    After that, surrounding ASCII whitespace is stripped, underscores are
    accepted between digits only, then the whole text must be a signed
    [inf], [infinity] or [nan] in any case, or a decimal numeral with an
    optional exponent. *)

Definition is_space (c : ascii) : bool :=
  let n := nat_of_ascii c in
  ((9 <=? n) && (n <=? 13) || (n =? 32))%nat.

Definition is_digit (c : ascii) : bool :=
  let n := nat_of_ascii c in
  ((48 <=? n) && (n <=? 57))%nat.

Definition digit_value (c : ascii) : Z := Z.of_nat (nat_of_ascii c - 48).

Definition to_lower (c : ascii) : ascii :=
  let n := nat_of_ascii c in
  if ((65 <=? n) && (n <=? 90))%nat then ascii_of_nat (n + 32) else c.

Fixpoint drop_spaces (l : list ascii) : list ascii :=
  match l with
  | c :: t => if is_space c then drop_spaces t else l
  | [] => []
  end.

Definition strip (l : list ascii) : list ascii :=
  rev (drop_spaces (rev (drop_spaces l))).

(** Removes the underscores, [None] when one does not sit between two
    digits.  [prev] is the character before [l], if any. *)
Fixpoint drop_underscores (prev : option ascii) (l : list ascii)
  : option (list ascii) :=
  let prev_digit := match prev with Some p => is_digit p | None => false end in
  let prev_under := match prev with
                    | Some p => Ascii.eqb p "_"
                    | None => false
                    end in
  match l with
  | [] => if prev_under then None else Some []
  | c :: t =>
      if Ascii.eqb c "_" then
        if prev_digit then drop_underscores (Some c) t else None
      else if prev_under && negb (is_digit c) then None
      else option_map (cons c) (drop_underscores (Some c) t)
  end.

Fixpoint span_digits (l : list ascii) : list ascii * list ascii :=
  match l with
  | c :: t =>
      if is_digit c then let (ds, r) := span_digits t in (c :: ds, r)
      else ([], l)
  | [] => ([], [])
  end.

Definition digits_value (ds : list ascii) : Z :=
  fold_left (fun acc c => 10 * acc + digit_value c)%Z ds 0%Z.

(** An optional sign: whether it is a minus, and the rest. *)
Definition take_sign (l : list ascii) : bool * list ascii :=
  match l with
  | "-"%char :: t => (true, t)
  | "+"%char :: t => (false, t)
  | _ => (false, l)
  end.

Definition lower_all (l : list ascii) : string :=
  string_of_list_ascii (map to_lower l).

Definition parse_inf_or_nan (l : list ascii) : option float :=
  let (neg, body) := take_sign l in
  let w := lower_all body in
  if (w =? "inf") || (w =? "infinity") then Some (S754_infinity neg)
  else if w =? "nan" then Some S754_nan
  else None.

Definition parse_exponent (l : list ascii) : option Z :=
  match l with
  | [] => Some 0%Z
  | c :: t =>
      if Ascii.eqb (to_lower c) "e" then
        let (neg, body) := take_sign t in
        match span_digits body with
        | ((_ :: _) as ds, []) =>
            Some (if neg then (- digits_value ds)%Z else digits_value ds)
        | _ => None
        end
      else None
  end.

Definition parse_decimal (l : list ascii) : option float :=
  let (neg, body) := take_sign l in
  let (int_part, r1) := span_digits body in
  let (frac_part, r2) :=
    match r1 with
    | "."%char :: t => span_digits t
    | _ => ([], r1)
    end in
  match int_part ++ frac_part with
  | [] => None
  | ds =>
      match parse_exponent r2 with
      | Some e =>
          Some (of_decimal neg (digits_value ds)
                           (e - Z.of_nat (List.length frac_part)))
      | None => None
      end
  end.

Definition float_of_str (s : string) : Result float :=
  match drop_underscores None (strip (ascii_text s)) with
  | Some l =>
      match parse_inf_or_nan l with
      | Some f => Ok f
      | None =>
          match parse_decimal l with
          | Some f => Ok f
          | None => Raise ValueError
          end
      end
  | None => Raise ValueError
  end.

(** *** [float(x)] *)

Definition float_of_int (z : Z) : Result float :=
  let f := round_Z z in
  if is_finite f then Ok f else Raise OverflowError.

(** A float that [float] has just built. *)
Definition built (r : Result float) : Result float_object :=
  match r with
  | Ok f => Ok (Fresh f)
  | Raise e => Raise e
  end.

Definition to_float (v : Val) : Result float_object :=
  match v with
  | VFloat f => Ok (document_float f)
  | VInt z => built (float_of_int z)
  | VBool b => built (Ok (round_Z (if b then 1 else 0)))
  | VStr s => built (float_of_str s)
  | VNone | VList _ | VDict _ => Raise TypeError
  end.

End Py.

Import Py.

(** ** The files the scripts read

    What [open], [read], [csv.reader] and [json.load] deliver is the
    environment of a run.  A CSV file is the rows [csv.reader] hands out
    before the read ends, at end of file or with an exception; a JSON file
    is the decoded document or the exception [open] or [json.load] raises.
    Every text (a path, a cell, a key, a string of a document) is held as
    the UTF-8 encoding of its characters.  Writing to standard output and
    standard error succeeds. *)

Module World.

Inductive Encoding := UTF8 | Latin1.

Record CsvRead := {
  rows_read : list (list string);
  read_failure : option Exn
}.

Inductive CsvOpen :=
| CsvOpenFails (e : Exn)
| CsvOpens (r : CsvRead).

Record Files := {
  (** opening the file as UTF-8 and reading its first 1024 characters *)
  probe : string -> option Exn;
  open_csv : string -> Encoding -> CsvOpen;
  load_json : string -> Result Val
}.

(** [s.endswith(suffix)] *)
Definition endswith (s suffix : string) : bool :=
  let n := String.length s in
  let k := String.length suffix in
  (k <=? n)%nat && (substring (n - k) k s =? suffix).

End World.

Import World.

(** ** report_generator_enterprise.py *)

Module Enterprise.

Record FinancialRecord := {
  revenue : float_object;
  profit : float_object
}.

(** The [margin] property. *)
Definition margin (self : FinancialRecord) : option float :=
  if feqb (value (revenue self)) fzero then None
  else Some (fdiv (value (profit self)) (value (revenue self))).

(** How a tuple comparison compares two items: one and the same object is
    equal to itself, two objects are compared with [==]. *)
Definition item_eqb (x y : float_object) : bool :=
  same_object x y || feqb (value x) (value y).

(** The [__eq__] that [@dataclass] generates in CPython 3.11, between two
    different records: the tuple of the fields of one compared with the
    tuple of the fields of the other.  So [0.0] equals [-0.0], and a NaN
    equals only the very same NaN object. *)
Definition record_eqb (a b : FinancialRecord) : bool :=
  item_eqb (revenue a) (revenue b) && item_eqb (profit a) (profit b).

Inductive Level := INFO | WARNING | ERROR | CRITICAL.

Inductive Message :=
| Utf8Failed (filepath : string)
| SkippingInvalidRow (raw_revenue raw_profit : Val)
| InsufficientColumns (line_num : nat)
| FailedToReadCsv (filepath : string) (e : Exn)
| NoListData
| FormatDrift (key_rev key_prof : string) (found : list string)
| InvalidJsonFile (filepath : string)
| UnexpectedJsonError (e : Exn)
| RemovedDuplicates (duplicates_count : nat)
| UnsupportedExtension.

(** The lines [print] writes, before formatting. *)
Inductive Line :=
| Generating (file : string)
| Header
| Rule
| Row (revenue profit : float) (red : bool) (margin : option float)
| Totals (count : nat) (total_revenue : float).

(** A call of [logging.info], [.warning], [.error] or [.critical].  The
    root logger is set to [WARNING]: the handlers write the entries from
    that level up and drop the [INFO] ones. *)
Inductive Entry :=
| Log (level : Level) (msg : Message).

(** What a run emits: log entries and printed lines.  The readers and the
    filter only log; [format_table] and [main] also print. *)
Inductive Event :=
| Logged (entry : Entry)
| Print (line : Line).

Definition is_log (lvl : Level) (entry : Entry) : bool :=
  match entry, lvl with
  | Log INFO _, INFO | Log WARNING _, WARNING
  | Log ERROR _, ERROR | Log CRITICAL _, CRITICAL => true
  | _, _ => false
  end.

(** A generator that has been driven to its end: each node is one
    [next()], with the events emitted during that call.  [Abort] is a call
    that ends with an exception or [SystemExit] reaching the consumer.
    The records of a stream are different objects, each built by a call
    of its own. *)
Inductive gen (A : Type) : Type :=
| Yield (evs : list Entry) (x : A) (rest : gen A)
| Done (evs : list Entry)
| Abort (evs : list Entry) (r : Raised).
Arguments Yield {A} evs x rest.
Arguments Done {A} evs.
Arguments Abort {A} evs r.

(** Events emitted before the generator is resumed. *)
Definition prepend {A} (evs : list Entry) (g : gen A) : gen A :=
  match g with
  | Yield e x rest => Yield (evs ++ e) x rest
  | Done e => Done (evs ++ e)
  | Abort e r => Abort (evs ++ e) r
  end.

Fixpoint records {A} (g : gen A) : list A :=
  match g with
  | Yield _ x rest => x :: records rest
  | Done _ | Abort _ _ => []
  end.

Fixpoint events {A} (g : gen A) : list Entry :=
  match g with
  | Yield evs _ rest => evs ++ events rest
  | Done evs | Abort evs _ => evs
  end.

(** How the generator ends: [None] is [StopIteration]. *)
Fixpoint ending {A} (g : gen A) : option Raised :=
  match g with
  | Yield _ _ rest => ending rest
  | Done _ => None
  | Abort _ r => Some r
  end.

(** An iterator over a list already in memory. *)
Fixpoint iter {A} (l : list A) : gen A :=
  match l with
  | x :: t => Yield [] x (iter t)
  | [] => Done []
  end.

Definition detect_encoding (fs : Files) (filepath : string)
  : list Entry * Result Encoding :=
  match probe fs filepath with
  | None => ([], Ok UTF8)
  | Some UnicodeDecodeError => ([Log INFO (Utf8Failed filepath)], Ok Latin1)
  | Some e => ([], Raise e)
  end.

(** [except (ValueError, TypeError)], subclasses included. *)
Definition value_or_type_error (e : Exn) : bool :=
  match e with
  | ValueError | TypeError | UnicodeDecodeError | JSONDecodeError => true
  | _ => false
  end.

Definition validate_record (raw_revenue raw_profit : Val)
  : list Entry * Result (option FinancialRecord) :=
  let handler e :=
    if value_or_type_error e
    then ([Log WARNING (SkippingInvalidRow raw_revenue raw_profit)], Ok None)
    else ([], Raise e) in
  match to_float raw_revenue with
  | Ok rev =>
      match to_float raw_profit with
      | Ok prof => ([], Ok (Some {| revenue := rev; profit := prof |}))
      | Raise e => handler e
      end
  | Raise e => handler e
  end.

(** The tail of a loop body, [record = validate_record(...)] followed by
    [if record: yield record], inside a [try] whose [except Exception]
    logs [on_error e] and calls [sys.exit(1)]; [next] is the rest of the
    loop. *)
Definition yield_validated (on_error : Exn -> Message)
  (validated : list Entry * Result (option FinancialRecord))
  (next : gen FinancialRecord) : gen FinancialRecord :=
  match validated with
  | (evs, Ok (Some record)) => Yield evs record next
  | (evs, Ok None) => prepend evs next
  | (evs, Raise e) => Abort (evs ++ [Log ERROR (on_error e)]) (SysExit 1)
  end.

Fixpoint csv_loop (filepath : string) (line_num : nat)
  (rows : list (list string)) (failure : option Exn) : gen FinancialRecord :=
  match rows with
  | row :: rest =>
      let next := csv_loop filepath (S line_num) rest failure in
      if (List.length row <? 2)%nat then
        prepend [Log WARNING (InsufficientColumns line_num)] next
      else
        yield_validated (FailedToReadCsv filepath)
          (validate_record (VStr (nth 0 row "")) (VStr (nth 1 row ""))) next
  | [] =>
      match failure with
      | None => Done []
      | Some e => Abort [Log ERROR (FailedToReadCsv filepath e)] (SysExit 1)
      end
  end.

Definition stream_csv (fs : Files) (filepath : string) : gen FinancialRecord :=
  match detect_encoding fs filepath with
  | (evs, Raise e) => Abort evs (Exc e)
  | (evs, Ok encoding) =>
      prepend evs
        match open_csv fs filepath encoding with
        | CsvOpenFails e =>
            Abort [Log ERROR (FailedToReadCsv filepath e)] (SysExit 1)
        | CsvOpens r =>
            (* header = next(reader, None) *)
            csv_loop filepath 2 (tl (rows_read r)) (read_failure r)
        end
  end.

Fixpoint dict_get (d : list (string * Val)) (key : string) : Val :=
  match d with
  | (k, v) :: t => if k =? key then v else dict_get t key
  | [] => VNone
  end.

Definition dict_has (d : list (string * Val)) (key : string) : bool :=
  existsb (fun kv => fst kv =? key) d.

Fixpoint json_loop (key_rev key_prof : string) (items : list Val)
  : gen FinancialRecord :=
  match items with
  | item :: rest =>
      let next := json_loop key_rev key_prof rest in
      match item with
      | VDict d =>
          yield_validated UnexpectedJsonError
            (validate_record (dict_get d key_rev) (dict_get d key_prof)) next
      | VList (x0 :: x1 :: _) =>
          yield_validated UnexpectedJsonError (validate_record x0 x1) next
      | _ => next
      end
  | [] => Done []
  end.

Definition stream_json (fs : Files) (filepath key_rev key_prof : string)
  : gen FinancialRecord :=
  match load_json fs filepath with
  | Raise JSONDecodeError =>
      Abort [Log ERROR (InvalidJsonFile filepath)] (SysExit 1)
  | Raise e => Abort [Log ERROR (UnexpectedJsonError e)] (SysExit 1)
  | Ok data =>
      let items := match data with VList l => l | _ => [] end in
      let no_items :=
        match items with
        | [] => [Log WARNING NoListData]
        | _ => []
        end in
      let drift :=
        match items with
        | VDict d :: _ =>
            if negb (dict_has d key_rev) || negb (dict_has d key_prof)
            then [Log CRITICAL (FormatDrift key_rev key_prof (map fst d))]
            else []
        | _ => []
        end in
      prepend (no_items ++ drift) (json_loop key_rev key_prof items)
  end.

(** [record in seen]: the set holds the records yielded so far. *)
Definition seen_contains (seen : list FinancialRecord) (record : FinancialRecord)
  : bool :=
  existsb (fun s => record_eqb s record) seen.

Fixpoint dedupe_loop (seen : list FinancialRecord) (duplicates_count : nat)
  (iterator : gen FinancialRecord) : gen FinancialRecord :=
  match iterator with
  | Yield evs record rest =>
      if seen_contains seen record
      then prepend evs (dedupe_loop seen (S duplicates_count) rest)
      else Yield evs record (dedupe_loop (record :: seen) duplicates_count rest)
  | Done evs =>
      Done (evs ++ if (0 <? duplicates_count)%nat
                   then [Log INFO (RemovedDuplicates duplicates_count)]
                   else [])
  | Abort evs r => Abort evs r
  end.

Definition pipeline_dedupe (iterator : gen FinancialRecord)
  : gen FinancialRecord :=
  dedupe_loop [] 0 iterator.

Fixpoint table_loop (count : nat) (total_revenue : float)
  (records : gen FinancialRecord) : list Event * option Raised :=
  match records with
  | Yield evs rec rest =>
      let (tr, out) :=
        table_loop (S count) (fadd total_revenue (value (revenue rec))) rest in
      (map Logged evs
         ++ Print (Row (value (revenue rec)) (value (profit rec))
                       (fltb (value (profit rec)) fzero) (margin rec)) :: tr,
       out)
  | Done evs =>
      (map Logged evs ++ [Print Rule; Print (Totals count total_revenue)], None)
  | Abort evs r => (map Logged evs, Some r)
  end.

Definition format_table (records : gen FinancialRecord)
  : list Event * option Raised :=
  let (tr, out) := table_loop 0 fzero records in
  (Print Header :: Print Rule :: tr, out).

(** What [parser.parse_args()] returns.  [main] below is [main] from that
    point on: a command line that [argparse] rejects ends the process
    before. *)
Record Args := {
  file : string;
  rev_key : string;
  prof_key : string
}.

Definition main (fs : Files) (args : Args) : list Event * option Raised :=
  let report stream :=
    let unique_stream := pipeline_dedupe stream in
    let (tr, out) := format_table unique_stream in
    (Print (Generating (file args)) :: tr, out) in
  if endswith (file args) ".csv" then
    report (stream_csv fs (file args))
  else if endswith (file args) ".json" then
    report (stream_json fs (file args) (rev_key args) (prof_key args))
  else
    ([Logged (Log ERROR UnsupportedExtension)], Some (SysExit 1)).

(** The status the interpreter exits with: [sys.exit(code)] gives [code],
    an exception nobody caught gives 1. *)
Definition exit_status (out : option Raised) : Z :=
  match out with
  | None => 0
  | Some (SysExit code) => code
  | Some (Exc _) => 1
  end.

End Enterprise.

(** ** What report_generator_plain.py and report_generator_tabulate.py share

    The two scripts hold the same [load_data_from_hardcoded],
    [load_data_from_csv] and [load_data_from_json], line for line; they
    differ in [validate_financial_data] and in how the table is printed.
    The loaders are written once here, over the validator. *)

Module Script.

(** A number of a data tuple: the validators produce floats, the built-in
    dataset holds ints.  These two scripts never compare tuples, so a
    float is its value here. *)
Inductive Num :=
| NInt (z : Z)
| NFloat (f : float).

Definition Pair : Type := Num * Num.

(** [x == 0] *)
Definition num_is_zero (x : Num) : bool :=
  match x with
  | NInt z => (z =? 0)%Z
  | NFloat f => feqb f fzero
  end.

(** An int as the exact operand of a division. *)
Definition exact (z : Z) : float :=
  match z with
  | Z0 => S754_zero false
  | Zpos p => S754_finite false p 0
  | Zneg p => S754_finite true p 0
  end.

Definition num_to_float (x : Num) : Result float :=
  match x with
  | NInt z => float_of_int z
  | NFloat f => Ok f
  end.

(** [a / b]: the quotient of two ints is rounded once and must fit a
    float; a float operand converts the other one first; a zero divisor
    raises. *)
Definition truediv (a b : Num) : Result float :=
  match a, b with
  | NInt x, NInt y =>
      if (y =? 0)%Z then Raise ZeroDivisionError
      else
        let q := fdiv (exact x) (exact y) in
        if is_finite q then Ok q else Raise OverflowError
  | _, _ =>
      match num_to_float a with
      | Ok fa =>
          match num_to_float b with
          | Ok fb =>
              if feqb fb fzero then Raise ZeroDivisionError
              else Ok (fdiv fa fb)
          | Raise e => Raise e
          end
      | Raise e => Raise e
      end
  end.

(** Lines on standard output. *)
Inductive Line :=
| NoValidData
| Header
| Rule
| Row (revenue profit : Num) (percent : option float)
| MustBeCsvOrJson
| Table (rows : list (Num * Num * option float)) (tablefmt : string).

(** Lines on standard error. *)
Inductive ErrLine :=
| ZeroRevenue (prof : float)
| InvalidData (revenue profit : Val) (e : Exn)
| ErrorReadingCsv (e : Exn)
| ErrorReadingJson (e : Exn).

Inductive Event :=
| Out (l : Line)
| Err (l : ErrLine).

Definition load_data_from_hardcoded : list Pair :=
  [ (NInt 1000, NInt 10);
    (NInt 2000, NInt 17);
    (NInt 2500, NInt 170);
    (NInt 2500, NInt (-170)) ].

Section Loaders.

Variable validate_financial_data : Val -> Val -> list Event * Result (option Pair).

(** [validated = validate_financial_data(...)] then
    [if validated: data.append(validated)], followed by the rest of the
    loop; a non-empty tuple is true. *)
Definition append_validated
  (validated : list Event * Result (option Pair))
  (next : list Event * Result (list Pair)) : list Event * Result (list Pair) :=
  match validated with
  | (evs, Ok v) =>
      match next with
      | (evs', Ok data) =>
          (evs ++ evs', Ok (match v with Some t => t :: data | None => data end))
      | (evs', Raise e) => (evs ++ evs', Raise e)
      end
  | (evs, Raise e) => (evs, Raise e)
  end.

Fixpoint csv_loop (rows : list (list string)) (failure : option Exn)
  : list Event * Result (list Pair) :=
  match rows with
  | row :: rest =>
      if (2 <=? List.length row)%nat then
        append_validated
          (validate_financial_data (VStr (nth 0 row "")) (VStr (nth 1 row "")))
          (csv_loop rest failure)
      else csv_loop rest failure
  | [] =>
      match failure with
      | None => ([], Ok [])
      | Some e => ([], Raise e)
      end
  end.

Definition load_data_from_csv (fs : Files) (filepath : string)
  : list Event * list Pair :=
  match open_csv fs filepath UTF8 with
  | CsvOpenFails e => ([Err (ErrorReadingCsv e)], [])
  | CsvOpens r =>
      match csv_loop (tl (rows_read r)) (read_failure r) with
      | (evs, Ok data) => (evs, data)
      | (evs, Raise e) => (evs ++ [Err (ErrorReadingCsv e)], [])
      end
  end.

Fixpoint json_loop (items : list Val) : list Event * Result (list Pair) :=
  match items with
  | item :: rest =>
      match item with
      | VDict d =>
          append_validated
            (validate_financial_data (Enterprise.dict_get d "revenue")
                                     (Enterprise.dict_get d "profit"))
            (json_loop rest)
      | VList (x0 :: x1 :: _) =>
          append_validated (validate_financial_data x0 x1) (json_loop rest)
      | _ => json_loop rest
      end
  | [] => ([], Ok [])
  end.

Definition load_data_from_json (fs : Files) (filepath : string)
  : list Event * list Pair :=
  match load_json fs filepath with
  | Raise e => ([Err (ErrorReadingJson e)], [])
  | Ok json_data =>
      let items := match json_data with VList l => l | _ => [] end in
      match json_loop items with
      | (evs, Ok data) => (evs, data)
      | (evs, Raise e) => (evs ++ [Err (ErrorReadingJson e)], [])
      end
  end.

(** The part of [main] that loads the data: [None] after the message for
    a file that is neither CSV nor JSON, where [main] returns.  An absent
    argument and an empty one are both false in [if args.file]. *)
Definition load (fs : Files) (file : option string)
  : list Event * option (list Pair) :=
  match file with
  | None | Some "" => ([], Some load_data_from_hardcoded)
  | Some path =>
      if endswith path ".csv" then
        let (evs, data) := load_data_from_csv fs path in (evs, Some data)
      else if endswith path ".json" then
        let (evs, data) := load_data_from_json fs path in (evs, Some data)
      else ([Out MustBeCsvOrJson], None)
  end.

End Loaders.

Definition exit_status (out : option Raised) : Z := Enterprise.exit_status out.

End Script.

(** ** report_generator_plain.py *)

Module Plain.
Import Script.

Definition validate_financial_data (revenue profit : Val)
  : list Event * Result (option Pair) :=
  let handler e :=
    if Enterprise.value_or_type_error e
    then ([Err (InvalidData revenue profit e)], Ok None)
    else ([], Raise e) in
  match to_float revenue with
  | Ok rev =>
      match to_float profit with
      | Ok prof =>
          if feqb (value rev) fzero
          then ([Err (ZeroRevenue (value prof))], Ok None)
          else ([], Ok (Some (NFloat (value rev), NFloat (value prof))))
      | Raise e => handler e
      end
  | Raise e => handler e
  end.

Definition load_data_from_csv := Script.load_data_from_csv validate_financial_data.
Definition load_data_from_json := Script.load_data_from_json validate_financial_data.

Fixpoint print_rows (data : list Pair) : list Event * option Raised :=
  match data with
  | (revenue, profit) :: rest =>
      match truediv profit revenue with
      | Ok percent =>
          let (tr, out) := print_rows rest in
          (Out (Row revenue profit (Some percent)) :: tr, out)
      | Raise ZeroDivisionError =>
          let (tr, out) := print_rows rest in
          (Out (Row revenue profit None) :: tr, out)
      | Raise e => ([], Some (Exc e))
      end
  | [] => ([], None)
  end.

Definition format_and_print_table (data : list Pair)
  : list Event * option Raised :=
  match data with
  | [] => ([Out NoValidData], None)
  | _ =>
      let (tr, out) := print_rows data in
      (Out Header :: Out Rule :: tr, out)
  end.

(** [main] once [parse_args] has returned [args], with [file] for
    [args.file]. *)
Definition main (fs : Files) (file : option string)
  : list Event * option Raised :=
  match Script.load validate_financial_data fs file with
  | (evs, Some data) =>
      let (tr, out) := format_and_print_table data in (evs ++ tr, out)
  | (evs, None) => (evs, None)
  end.

End Plain.

(** ** report_generator_tabulate.py *)

Module Tabulate.
Import Script.

Definition validate_financial_data (revenue profit : Val)
  : list Event * Result (option Pair) :=
  let handler e :=
    if Enterprise.value_or_type_error e
    then ([Err (InvalidData revenue profit e)], Ok None)
    else ([], Raise e) in
  match to_float revenue with
  | Ok rev =>
      match to_float profit with
      | Ok prof => ([], Ok (Some (NFloat (value rev), NFloat (value prof))))
      | Raise e => handler e
      end
  | Raise e => handler e
  end.

Definition load_data_from_csv := Script.load_data_from_csv validate_financial_data.
Definition load_data_from_json := Script.load_data_from_json validate_financial_data.

Fixpoint process (data : list Pair)
  : Result (list (Num * Num * option float)) :=
  match data with
  | (revenue, profit) :: rest =>
      let row :=
        if num_is_zero revenue then Ok (revenue, profit, None)
        else
          match truediv profit revenue with
          | Ok percent => Ok (revenue, profit, Some percent)
          | Raise e => Raise e
          end in
      match row with
      | Ok r =>
          match process rest with
          | Ok processed_data => Ok (r :: processed_data)
          | Raise e => Raise e
          end
      | Raise e => Raise e
      end
  | [] => Ok []
  end.

(** [main] once [parse_args] has returned [args], with [file] and
    [format] for [args.file] and [args.format]; the import of [tabulate]
    at the top of the script has succeeded. *)
Definition main (fs : Files) (file : option string) (format : string)
  : list Event * option Raised :=
  match Script.load validate_financial_data fs file with
  | (evs, Some data) =>
      match process data with
      | Ok [] => (evs ++ [Out NoValidData], None)
      | Ok processed_data => (evs ++ [Out (Table processed_data format)], None)
      | Raise e => (evs, Some (Exc e))
      end
  | (evs, None) => (evs, None)
  end.

End Tabulate.

(** ** Reference definitions

    What the specification says in words, written independently of the
    loops above, and small worlds to run the scripts in. *)

Module Spec.
Import Enterprise.

(** The records of a sequence that equal no record before them, in the
    order of the sequence.  [before] holds every earlier record, kept or
    not. *)
Fixpoint first_occurrences (before s : list FinancialRecord)
  : list FinancialRecord :=
  match s with
  | r :: rest =>
      if existsb (fun b => record_eqb b r) before
      then first_occurrences (r :: before) rest
      else r :: first_occurrences (r :: before) rest
  | [] => []
  end.

(** The record a raw pair stands for, when both values convert. *)
Definition pair_record (raw_revenue raw_profit : Val) : option FinancialRecord :=
  match to_float raw_revenue, to_float raw_profit with
  | Ok rev, Ok prof => Some {| revenue := rev; profit := prof |}
  | _, _ => None
  end.

(** The record of a CSV row: columns 0 and 1 of a row that has them. *)
Definition csv_row_record (row : list string) : option FinancialRecord :=
  match row with
  | c0 :: c1 :: _ => pair_record (VStr c0) (VStr c1)
  | _ => None
  end.

(** The raw pair of a JSON item: the two keys of an object, the first two
    positions of a list that has them. *)
Definition json_item_pair (key_rev key_prof : string) (item : Val)
  : option (Val * Val) :=
  match item with
  | VDict d => Some (dict_get d key_rev, dict_get d key_prof)
  | VList (x0 :: x1 :: _) => Some (x0, x1)
  | _ => None
  end.

Definition json_item_record (key_rev key_prof : string) (item : Val)
  : option FinancialRecord :=
  match json_item_pair key_rev key_prof item with
  | Some (r, p) => pair_record r p
  | None => None
  end.

(** The values of a list of options that are present, in order. *)
Fixpoint present {A} (l : list (option A)) : list A :=
  match l with
  | Some x :: t => x :: present t
  | None :: t => present t
  | [] => []
  end.

(** An int too large for a float. *)
Definition overflows (v : Val) : bool :=
  match to_float v with
  | Raise OverflowError => true
  | _ => false
  end.

Definition item_in_range (key_rev key_prof : string) (item : Val) : bool :=
  match json_item_pair key_rev key_prof item with
  | Some (r, p) => negb (overflows r) && negb (overflows p)
  | None => true
  end.

Definition parses_finite (v : Val) : bool :=
  match to_float v with
  | Ok f => is_finite (value f)
  | Raise _ => false
  end.

(** A world whose every CSV path holds [rows] and reads without failure,
    and that has no JSON file. *)
Definition csv_world (rows : list (list string)) : Files :=
  {| probe := fun _ => None;
     open_csv := fun _ _ => CsvOpens {| rows_read := rows; read_failure := None |};
     load_json := fun _ => Raise FileNotFoundError |}.

(** A world whose every CSV path hands out [rows] and then fails with [e]. *)
Definition failing_csv_world (rows : list (list string)) (e : Exn) : Files :=
  {| probe := fun _ => None;
     open_csv := fun _ _ => CsvOpens {| rows_read := rows; read_failure := Some e |};
     load_json := fun _ => Raise FileNotFoundError |}.

(** A world whose every JSON path decodes to [doc], and that has no CSV
    file. *)
Definition json_world (doc : Val) : Files :=
  {| probe := fun _ => Some FileNotFoundError;
     open_csv := fun _ _ => CsvOpenFails FileNotFoundError;
     load_json := fun _ => Ok doc |}.

(** A world without any file. *)
Definition empty_world : Files :=
  {| probe := fun _ => Some FileNotFoundError;
     open_csv := fun _ _ => CsvOpenFails FileNotFoundError;
     load_json := fun _ => Raise FileNotFoundError |}.

Definition is_warning (entry : Entry) : Prop := is_log WARNING entry = true.

(** The lines a trace prints, and the entries it logs. *)
Fixpoint prints (tr : list Event) : list Line :=
  match tr with
  | Print line :: t => line :: prints t
  | Logged _ :: t => prints t
  | [] => []
  end.

Fixpoint logs (tr : list Event) : list Entry :=
  match tr with
  | Logged entry :: t => entry :: logs t
  | Print _ :: t => logs t
  | [] => []
  end.

(** The line [format_table] prints for a record. *)
Definition row_line (rec : FinancialRecord) : Line :=
  Row (value (revenue rec)) (value (profit rec))
      (fltb (value (profit rec)) fzero) (margin rec).

(** The revenue of a record, as a number. *)
Definition revenue_value (rec : FinancialRecord) : float := value (revenue rec).

Definition rec_of_Z (rev prof : Z) : FinancialRecord :=
  {| revenue := Fresh (round_Z rev); profit := Fresh (round_Z prof) |}.

(** Two floats are the same number: the same finite value, the same
    infinity, or two zeros of either sign.  A NaN is no number. *)
Definition same_number (x y : float) : Prop :=
  match x, y with
  | S754_zero _, S754_zero _ => True
  | S754_infinity s, S754_infinity s' => s = s'
  | S754_finite s m e, S754_finite s' m' e' => s = s' /\ m = m' /\ e = e'
  | _, _ => False
  end.

(** Two fields are equal when they are the same number, or both the NaN
    object of the decoder. *)
Definition equal_fields (x y : float_object) : Prop :=
  (x = DecoderNaN /\ y = DecoderNaN) \/ same_number (value x) (value y).

Definition equal_records (a b : FinancialRecord) : Prop :=
  equal_fields (revenue a) (revenue b) /\ equal_fields (profit a) (profit b).

(** A record without a NaN. *)
Definition nan_free (rec : FinancialRecord) : Prop :=
  is_nan (value (revenue rec)) = false /\ is_nan (value (profit rec)) = false.

(** The text of three characters: a no-break space (U+00A0) and the
    Arabic-Indic digits one (U+0661) and two (U+0662). *)
Definition nbsp_arabic_twelve : string :=
  string_of_list_ascii
    (map ascii_of_nat [194; 160; 217; 161; 217; 162])%nat.

(** A data tuple of two floats, as the validators of the plain and the
    tabulate script build them. *)
Definition float_pair (t : Script.Pair) : Prop :=
  exists rev prof, t = (Script.NFloat rev, Script.NFloat prof).

Definition nonzero_float_pair (t : Script.Pair) : Prop :=
  exists rev prof,
    t = (Script.NFloat rev, Script.NFloat prof) /\ feqb rev fzero = false.

(** The data tuple that holds the two floats of a record. *)
Definition pair_of_record (rec : FinancialRecord) : Script.Pair :=
  (Script.NFloat (value (revenue rec)), Script.NFloat (value (profit rec))).

(** An event on standard error. *)
Definition on_stderr (ev : Script.Event) : Prop :=
  exists l, ev = Script.Err l.

(** Whether the revenue of a data tuple is not zero. *)
Definition has_revenue (t : Script.Pair) : bool :=
  negb (Script.num_is_zero (fst t)).

End Spec.

Import Enterprise Spec.

(** ** Floats *)

Lemma feqb_true_inv (a b : float) :
  feqb a b = true ->
  match a, b with
  | S754_zero _, S754_zero _ => True
  | S754_infinity s1, S754_infinity s2 => s1 = s2
  | S754_finite s1 m1 e1, S754_finite s2 m2 e2 => s1 = s2 /\ m1 = m2 /\ e1 = e2
  | _, _ => False
  end.
Proof.
  unfold feqb, SFeqb.
  destruct a as [s1|s1| |s1 m1 e1], b as [s2|s2| |s2 m2 e2]; simpl;
    intros H; try exact I;
    repeat match goal with s : bool |- _ => destruct s end;
    simpl in H; try discriminate H; auto;
    destruct (Z.compare_spec e1 e2); try discriminate H; subst;
    change (PosDef.Pos.compare_cont Eq m1 m2) with (Pos.compare m1 m2) in H;
    destruct (Pos.compare_spec m1 m2); try discriminate H; subst; auto.
Qed.

Lemma feqb_trans (a b c : float) :
  feqb a b = true -> feqb b c = true -> feqb a c = true.
Proof.
  intros Hab Hbc.
  apply feqb_true_inv in Hab. apply feqb_true_inv in Hbc.
  destruct a as [s1|s1| |s1 m1 e1], b as [s2|s2| |s2 m2 e2]; try contradiction;
    destruct c as [s3|s3| |s3 m3 e3]; try contradiction.
  - reflexivity.
  - subst. unfold feqb, SFeqb. simpl. destruct s3; reflexivity.
  - destruct Hab as (-> & -> & ->). destruct Hbc as (-> & -> & ->).
    unfold feqb, SFeqb. simpl.
    change (PosDef.Pos.compare_cont Eq m3 m3) with (Pos.compare m3 m3).
    destruct s3; rewrite Z.compare_refl, Pos.compare_refl; reflexivity.
Qed.

Lemma feqb_nan_r (x : float) : feqb x S754_nan = false.
Proof. destruct x as [s|s| |s m e]; try reflexivity; destruct s; reflexivity. Qed.

Lemma item_eqb_trans (x y z : float_object) :
  item_eqb x y = true -> item_eqb y z = true -> item_eqb x z = true.
Proof.
  unfold item_eqb.
  destruct x as [u|], y as [v|], z as [w|]; simpl;
    rewrite ?feqb_nan_r; try discriminate; auto.
  apply feqb_trans.
Qed.

Lemma record_eqb_trans (a b c : FinancialRecord) :
  record_eqb a b = true -> record_eqb b c = true -> record_eqb a c = true.
Proof.
  unfold record_eqb. intros Hab Hbc.
  apply andb_true_iff in Hab as [H1 H2]. apply andb_true_iff in Hbc as [H3 H4].
  apply andb_true_iff. split; eapply item_eqb_trans; eauto.
Qed.

(** [float] never fails on a string with anything but [ValueError]. *)
Lemma float_of_str_raises (s : string) (e : Exn) :
  float_of_str s = Raise e -> e = ValueError.
Proof.
  unfold float_of_str.
  destruct (drop_underscores None _) as [l|]; [|congruence].
  destruct (parse_inf_or_nan l); [discriminate|].
  destruct (parse_decimal l); [discriminate|congruence].
Qed.

Lemma built_raises (r : Result float) (e : Exn) :
  built r = Raise e -> r = Raise e.
Proof. destruct r; simpl; congruence. Qed.

Lemma built_ok (r : Result float) (x : float_object) :
  built r = Ok x -> exists f, r = Ok f /\ x = Fresh f.
Proof. destruct r; simpl; [intros [= <-]; eauto|discriminate]. Qed.

Lemma to_float_raises (v : Val) (e : Exn) :
  to_float v = Raise e ->
  e = ValueError \/ e = TypeError \/ e = OverflowError.
Proof.
  destruct v; simpl; try discriminate; try (intros [= <-]; auto).
  - intros H. apply built_raises in H. revert H.
    unfold float_of_int. destruct (is_finite _); [discriminate|].
    intros [= <-]; auto.
  - intros H. apply built_raises, float_of_str_raises in H. auto.
Qed.

(** ** Generators *)

Section Generators.
Context {A : Type}.
Implicit Types (g : gen A) (evs : list Entry).

Lemma prepend_nil g : prepend [] g = g.
Proof. destruct g; reflexivity. Qed.

Lemma prepend_app evs evs' g :
  prepend evs (prepend evs' g) = prepend (evs ++ evs') g.
Proof. destruct g; simpl; rewrite app_assoc; reflexivity. Qed.

Lemma records_prepend evs g : records (prepend evs g) = records g.
Proof. destruct g; reflexivity. Qed.

Lemma events_prepend evs g : events (prepend evs g) = evs ++ events g.
Proof. destruct g; simpl; rewrite ?app_assoc; reflexivity. Qed.

Lemma ending_prepend evs g : ending (prepend evs g) = ending g.
Proof. destruct g; reflexivity. Qed.

Lemma records_iter (l : list A) : records (iter l) = l.
Proof. induction l; simpl; congruence. Qed.

End Generators.

(** ** The deduplication filter *)

Lemma dedupe_loop_prepend seen n evs g :
  dedupe_loop seen n (prepend evs g) = prepend evs (dedupe_loop seen n g).
Proof.
  destruct g; simpl.
  - destruct (seen_contains seen x); simpl.
    + rewrite prepend_app. reflexivity.
    + reflexivity.
  - rewrite app_assoc. reflexivity.
  - reflexivity.
Qed.

(** Filtering what the filter has produced changes nothing, whatever the
    set and the counter the first pass started from. *)
Lemma dedupe_loop_idempotent g : forall seen n,
  dedupe_loop seen 0 (dedupe_loop seen n g) = dedupe_loop seen n g.
Proof.
  induction g as [evs r rest IH|evs|evs r]; intros seen n; simpl.
  - destruct (seen_contains seen r) eqn:Hin.
    + rewrite dedupe_loop_prepend, IH. reflexivity.
    + simpl. rewrite Hin, IH. reflexivity.
  - rewrite app_nil_r. reflexivity.
  - reflexivity.
Qed.

(** The set of kept records answers membership as the list of all earlier
    records does. *)
Lemma dedupe_loop_first_occurrences g : forall seen before n,
  (forall r, seen_contains seen r = existsb (fun b => record_eqb b r) before) ->
  records (dedupe_loop seen n g) = first_occurrences before (records g).
Proof.
  induction g as [evs r rest IH|evs|evs x]; intros seen before n Hinv; simpl;
    try reflexivity.
  rewrite <- Hinv.
  destruct (seen_contains seen r) eqn:Hin.
  - rewrite records_prepend. apply IH.
    intros x. simpl. rewrite <- Hinv.
    destruct (record_eqb r x) eqn:Hrx; [|reflexivity].
    simpl. unfold seen_contains in *.
    apply existsb_exists in Hin as (s & Hs & Hsr).
    apply existsb_exists. exists s. split; [assumption|].
    eapply record_eqb_trans; eauto.
  - simpl. f_equal. apply IH.
    intros x. simpl. rewrite <- Hinv. reflexivity.
Qed.

Lemma records_dedupe_loop_incl g : forall seen n r,
  In r (records (dedupe_loop seen n g)) -> In r (records g).
Proof.
  induction g as [evs x rest IH|evs|evs x]; intros seen n r; simpl; auto.
  destruct (seen_contains seen x).
  - rewrite records_prepend. intros H. right. eapply IH; eauto.
  - simpl. intros [H|H]; [auto|]. right. eapply IH; eauto.
Qed.

(** C6: the Deduplication Filter is idempotent: filtering its own output
    gives back that output, record for record, with the same diagnostics
    and the same end of stream. *)
Theorem pipeline_dedupe_idempotent (stream : gen FinancialRecord) :
  pipeline_dedupe (pipeline_dedupe stream) = pipeline_dedupe stream.
Proof. unfold pipeline_dedupe. apply dedupe_loop_idempotent. Qed.

Lemma feqb_same_number (x y : float) :
  feqb x y = true <-> same_number x y.
Proof.
  split; [apply feqb_true_inv|].
  unfold feqb, SFeqb.
  destruct x as [s|s| |s m e], y as [s'|s'| |s' m' e']; simpl;
    try contradiction; try reflexivity.
  - intros <-. destruct s; reflexivity.
  - intros (<- & <- & <-).
    change (PosDef.Pos.compare_cont Eq m m) with (Pos.compare m m).
    destruct s; rewrite Z.compare_refl, Pos.compare_refl; reflexivity.
Qed.

Lemma item_eqb_equal_fields (x y : float_object) :
  item_eqb x y = true <-> equal_fields x y.
Proof.
  unfold item_eqb, equal_fields.
  destruct x as [u|], y as [v|]; simpl; rewrite ?feqb_nan_r.
  - rewrite feqb_same_number. split; [auto|]. intros [[H _]|H]; [discriminate|exact H].
  - split; [discriminate|]. intros [[H _]|H]; [discriminate|].
    destruct u; contradiction.
  - split; [discriminate|]. intros [[_ H]|H]; [discriminate|contradiction].
  - split; auto.
Qed.

Lemma equal_fields_without_nan (x y : float_object) :
  is_nan (value x) = false ->
  (equal_fields x y <-> same_number (value x) (value y)).
Proof.
  intros Hx. unfold equal_fields. split; [|auto].
  intros [[-> _]|H]; [discriminate|exact H].
Qed.

(** C2, as the code has it: the Deduplication Filter yields exactly the
    records of its input that are equal to no earlier record, in input
    order, where two records are equal when each field of one is the same
    number as the field of the other (the two zeros being one number), or
    the same NaN object.  For records without a NaN, that is the first
    occurrence of each structurally equal record; the input
    [(100,10), (200,20), (100,10)] gives [(100,10), (200,20)].  A NaN read
    from text is an object of its own and equals nothing, so a record
    that holds one is never removed; the NaN of a JSON document is one
    object, so the second item [[NaN, 1]] is removed. *)
Theorem pipeline_dedupe_first_occurrences :
  (forall a b : FinancialRecord,
     record_eqb a b = true <-> equal_records a b) /\
  (forall a b : FinancialRecord,
     nan_free a ->
     (record_eqb a b = true <->
      same_number (value (revenue a)) (value (revenue b)) /\
      same_number (value (profit a)) (value (profit b)))) /\
  (forall stream : gen FinancialRecord,
     records (pipeline_dedupe stream) = first_occurrences [] (records stream)) /\
  (forall s : list FinancialRecord,
     records (pipeline_dedupe (iter s)) = first_occurrences [] s) /\
  records (pipeline_dedupe
             (iter [rec_of_Z 100 10; rec_of_Z 200 20; rec_of_Z 100 10]))
  = [rec_of_Z 100 10; rec_of_Z 200 20] /\
  records (pipeline_dedupe
             (stream_json
                (json_world (VList [VList [VFloat S754_nan; VInt 1];
                                    VList [VFloat S754_nan; VInt 1]]))
                "data.json" "revenue" "profit"))
  = [{| revenue := DecoderNaN; profit := Fresh (round_Z 1) |}].
Proof.
  assert (Heq : forall a b : FinancialRecord,
             record_eqb a b = true <-> equal_records a b).
  { intros a b. unfold record_eqb, equal_records.
    rewrite andb_true_iff, !item_eqb_equal_fields. reflexivity. }
  assert (H : forall stream : gen FinancialRecord,
             records (pipeline_dedupe stream)
             = first_occurrences [] (records stream)).
  { intros stream. unfold pipeline_dedupe.
    apply dedupe_loop_first_occurrences. reflexivity. }
  split; [exact Heq|]. split; [|split; [exact H|split; [|split]]].
  - intros a b [Hr Hp]. rewrite Heq. unfold equal_records.
    rewrite (equal_fields_without_nan _ _ Hr), (equal_fields_without_nan _ _ Hp).
    reflexivity.
  - intros s. rewrite H, records_iter. reflexivity.
  - vm_compute. reflexivity.
  - vm_compute. reflexivity.
Qed.

Lemma pipeline_dedupe_first_occurrences_witness :
  record_eqb (rec_of_Z 0 10)
             {| revenue := Fresh (S754_zero true); profit := Fresh (round_Z 10) |}
  = true.
Proof.
  apply (proj1 (proj2 pipeline_dedupe_first_occurrences) (rec_of_Z 0 10)
           {| revenue := Fresh (S754_zero true); profit := Fresh (round_Z 10) |}).
  - split; reflexivity.
  - split; [exact I|]. vm_compute. auto.
Defined.

(** The claim of C2 fails for records that hold a NaN: two CSV rows
    [nan,1] give two records whose fields are the same, and the second
    one is not removed. *)
Lemma equal_nan_rows_both_yielded :
  csv_row_record ["nan"; "1"]
  = Some {| revenue := Fresh S754_nan; profit := Fresh (round_Z 1) |} /\
  records (pipeline_dedupe
             (stream_csv
                (csv_world [["revenue"; "profit"]; ["nan"; "1"]; ["nan"; "1"]])
                "data.csv"))
  = [{| revenue := Fresh S754_nan; profit := Fresh (round_Z 1) |};
     {| revenue := Fresh S754_nan; profit := Fresh (round_Z 1) |}].
Proof. vm_compute. auto. Qed.

(** ** The record validators *)

Lemma overflows_str (s : string) : overflows (VStr s) = false.
Proof.
  unfold overflows. simpl. destruct (float_of_str s) eqn:H; [reflexivity|].
  apply float_of_str_raises in H. subst. reflexivity.
Qed.

Lemma value_or_type_error_in_range (v : Val) (e : Exn) :
  to_float v = Raise e -> overflows v = false -> value_or_type_error e = true.
Proof.
  intros H Hov. unfold overflows in Hov. rewrite H in Hov.
  apply to_float_raises in H as [->| [->| ->]]; [reflexivity|reflexivity|discriminate].
Qed.

(** Away from ints beyond the float range, the validator returns the
    record of the pair or rejects the pair with one warning. *)
Lemma validate_record_in_range (r p : Val) :
  overflows r = false -> overflows p = false ->
  validate_record r p =
    match pair_record r p with
    | Some rec => ([], Ok (Some rec))
    | None => ([Log WARNING (SkippingInvalidRow r p)], Ok None)
    end.
Proof.
  intros Hr Hp. unfold validate_record, pair_record.
  destruct (to_float r) as [rev|e] eqn:Er.
  - destruct (to_float p) as [prof|e] eqn:Ep; [reflexivity|].
    rewrite (value_or_type_error_in_range p e Ep Hp). reflexivity.
  - rewrite (value_or_type_error_in_range r e Er Hr). reflexivity.
Qed.

Lemma in_present {A} (l : list (option A)) (x : A) :
  In x (present l) -> In (Some x) l.
Proof.
  induction l as [|[y|] t IH]; simpl; auto.
  intros [->|H]; auto.
Qed.

(** The CSV loop yields the records of the rows that have one, whatever
    ends the read. *)
Lemma records_csv_loop filepath rows : forall line_num failure,
  records (csv_loop filepath line_num rows failure)
  = present (map csv_row_record rows).
Proof.
  induction rows as [|row rest IH]; intros line_num failure; simpl.
  - destruct failure; reflexivity.
  - destruct row as [|c0 [|c1 cols]]; simpl;
      try (rewrite records_prepend; apply IH).
    rewrite validate_record_in_range by apply overflows_str.
    destruct (pair_record (VStr c0) (VStr c1)); simpl.
    + f_equal. apply IH.
    + rewrite records_prepend. apply IH.
Qed.

(** The read ends as the file does: normally at end of file, with the
    fatal exit when the read fails. *)
Lemma ending_csv_loop filepath rows : forall line_num failure,
  ending (csv_loop filepath line_num rows failure)
  = match failure with None => None | Some _ => Some (SysExit 1) end.
Proof.
  induction rows as [|row rest IH]; intros line_num failure; simpl.
  - destruct failure; reflexivity.
  - destruct row as [|c0 [|c1 cols]]; simpl;
      try (rewrite ending_prepend; apply IH).
    rewrite validate_record_in_range by apply overflows_str.
    destruct (pair_record (VStr c0) (VStr c1)); simpl.
    + apply IH.
    + rewrite ending_prepend. apply IH.
Qed.

Lemma records_json_loop key_rev key_prof items :
  forallb (item_in_range key_rev key_prof) items = true ->
  records (json_loop key_rev key_prof items)
  = present (map (json_item_record key_rev key_prof) items).
Proof.
  induction items as [|item rest IH]; simpl; [reflexivity|].
  intros H. apply andb_true_iff in H as [Hitem Hrest].
  specialize (IH Hrest).
  unfold json_item_record, item_in_range in *.
  destruct item as [| | | | |l|d]; simpl in *; try exact IH.
  - destruct l as [|x0 [|x1 l]]; simpl in *; try exact IH.
    apply andb_true_iff in Hitem as [H0 H1].
    apply negb_true_iff in H0, H1.
    rewrite validate_record_in_range by assumption.
    destruct (pair_record x0 x1); simpl.
    + f_equal. exact IH.
    + rewrite records_prepend. exact IH.
  - apply andb_true_iff in Hitem as [H0 H1].
    apply negb_true_iff in H0, H1.
    rewrite validate_record_in_range by assumption.
    destruct (pair_record _ _); simpl.
    + f_equal. exact IH.
    + rewrite records_prepend. exact IH.
Qed.

Lemma ending_json_loop key_rev key_prof items :
  forallb (item_in_range key_rev key_prof) items = true ->
  ending (json_loop key_rev key_prof items) = None.
Proof.
  induction items as [|item rest IH]; simpl; [reflexivity|].
  intros H. apply andb_true_iff in H as [Hitem Hrest].
  specialize (IH Hrest).
  unfold item_in_range in Hitem.
  destruct item as [| | | | |l|d]; simpl in *; try exact IH.
  - destruct l as [|x0 [|x1 l]]; simpl in *; try exact IH.
    apply andb_true_iff in Hitem as [H0 H1].
    apply negb_true_iff in H0, H1.
    rewrite validate_record_in_range by assumption.
    destruct (pair_record x0 x1); simpl; [|rewrite ending_prepend]; exact IH.
  - apply andb_true_iff in Hitem as [H0 H1].
    apply negb_true_iff in H0, H1.
    rewrite validate_record_in_range by assumption.
    destruct (pair_record _ _); simpl; [|rewrite ending_prepend]; exact IH.
Qed.

(** C3: the margin of a record is absent exactly when its revenue equals
    zero (either zero of the float format); for any other revenue it is
    the float quotient of profit by revenue, with no further rounding. *)
Theorem margin_absent_iff_zero_revenue (r : FinancialRecord) :
  (margin r = None <-> feqb (value (revenue r)) fzero = true) /\
  (feqb (value (revenue r)) fzero = true <->
   exists s, value (revenue r) = S754_zero s) /\
  (feqb (value (revenue r)) fzero = false ->
   margin r = Some (fdiv (value (profit r)) (value (revenue r)))).
Proof.
  unfold margin. split; [|split].
  - destruct (feqb (value (revenue r)) fzero); split; congruence.
  - split.
    + intros H. apply feqb_true_inv in H.
      destruct (value (revenue r)) as [s|s| |s m e]; try contradiction. eauto.
    + intros [s ->]. reflexivity.
  - intros ->. reflexivity.
Qed.

Lemma margin_absent_iff_zero_revenue_witness :
  feqb (value (revenue (rec_of_Z 100 10))) fzero = false /\
  margin (rec_of_Z 100 10) = Some (fdiv (round_Z 10) (round_Z 100)).
Proof.
  split; [reflexivity|].
  apply (proj2 (proj2 (margin_absent_iff_zero_revenue (rec_of_Z 100 10)))).
  reflexivity.
Defined.

Lemma validate_record_some (r p : Val) evs rec :
  validate_record r p = (evs, Ok (Some rec)) ->
  evs = [] /\ pair_record r p = Some rec.
Proof.
  unfold validate_record, pair_record.
  destruct (to_float r) as [rev|e]; [destruct (to_float p) as [prof|e]|];
    try (destruct (value_or_type_error e); intros [= <-]; discriminate).
  intros [= <- <-]. auto.
Qed.

Lemma in_records_yield_validated on_error validated next rec :
  In rec (records (yield_validated on_error validated next)) ->
  (exists evs, validated = (evs, Ok (Some rec))) \/ In rec (records next).
Proof.
  destruct validated as [evs [[x|]|e]]; simpl.
  - intros [<-|H]; eauto.
  - rewrite records_prepend. auto.
  - contradiction.
Qed.

Lemma in_records_json_loop key_rev key_prof rec items :
  In rec (records (json_loop key_rev key_prof items)) ->
  exists item, In item items /\ json_item_record key_rev key_prof item = Some rec.
Proof.
  induction items as [|item rest IH]; simpl; [contradiction|].
  assert (Hnext : In rec (records (json_loop key_rev key_prof rest)) ->
                  exists item0, (item = item0 \/ In item0 rest) /\
                    json_item_record key_rev key_prof item0 = Some rec).
  { intros H. destruct (IH H) as (it & Hin & Hrec). eauto. }
  destruct item as [| | | | |l|d]; try exact Hnext.
  - destruct l as [|x0 [|x1 l]]; try exact Hnext.
    intros H. apply in_records_yield_validated in H as [[evs H]|H]; [|auto].
    apply validate_record_some in H as [_ H].
    exists (VList (x0 :: x1 :: l)). auto.
  - intros H. apply in_records_yield_validated in H as [[evs H]|H]; [|auto].
    apply validate_record_some in H as [_ H].
    exists (VDict d). auto.
Qed.

Lemma in_records_stream_csv fs filepath rec :
  In rec (records (stream_csv fs filepath)) ->
  exists encoding r row,
    open_csv fs filepath encoding = CsvOpens r /\
    In row (tl (rows_read r)) /\ csv_row_record row = Some rec.
Proof.
  unfold stream_csv.
  destruct (detect_encoding fs filepath) as [evs [encoding|e]]; simpl;
    [|contradiction].
  rewrite records_prepend.
  destruct (open_csv fs filepath encoding) as [e|r] eqn:Hopen; simpl;
    [contradiction|].
  rewrite records_csv_loop. intros H. apply in_present in H.
  apply in_map_iff in H as (row & Hrow & Hin).
  exists encoding, r, row. auto.
Qed.

Lemma in_records_stream_json fs filepath key_rev key_prof rec :
  In rec (records (stream_json fs filepath key_rev key_prof)) ->
  exists items item,
    load_json fs filepath = Ok (VList items) /\
    In item items /\ json_item_record key_rev key_prof item = Some rec.
Proof.
  unfold stream_json.
  destruct (load_json fs filepath) as [data|e]; simpl.
  - rewrite records_prepend. intros H.
    apply in_records_json_loop in H as (item & Hin & Hrec).
    destruct data as [| | | | |items|]; try contradiction.
    exists items, item. auto.
  - destruct e; contradiction.
Qed.

(** C1, as the code has it: a raw pair both of whose values [float]
    converts, finite or not, gives a record holding exactly the two
    converted floats and no diagnostic; a pair where a conversion raises
    [ValueError] or [TypeError] gives no record and one diagnostic naming
    the two raw values.  So a pair that parses as two finite numbers gives
    a record with those two finite fields, and every record the pipeline
    yields holds the floats converted from a row or item of the input.
    What [float] converts includes text in the digits and spaces that
    Unicode has beyond ASCII. *)
Theorem validator_accepts_what_float_converts :
  (forall raw_revenue raw_profit rev prof,
     to_float raw_revenue = Ok rev -> to_float raw_profit = Ok prof ->
     validate_record raw_revenue raw_profit
     = ([], Ok (Some {| revenue := rev; profit := prof |})) /\
     Tabulate.validate_financial_data raw_revenue raw_profit
     = ([], Ok (Some (Script.NFloat (value rev), Script.NFloat (value prof))))) /\
  (forall raw_revenue raw_profit e,
     to_float raw_revenue = Raise e \/
     (exists rev, to_float raw_revenue = Ok rev /\ to_float raw_profit = Raise e) ->
     e = ValueError \/ e = TypeError ->
     validate_record raw_revenue raw_profit
     = ([Log WARNING (SkippingInvalidRow raw_revenue raw_profit)], Ok None) /\
     Tabulate.validate_financial_data raw_revenue raw_profit
     = ([Script.Err (Script.InvalidData raw_revenue raw_profit e)], Ok None)) /\
  (forall raw_revenue raw_profit,
     parses_finite raw_revenue = true -> parses_finite raw_profit = true ->
     exists rec,
       validate_record raw_revenue raw_profit = ([], Ok (Some rec)) /\
       to_float raw_revenue = Ok (revenue rec) /\
       to_float raw_profit = Ok (profit rec) /\
       is_finite (value (revenue rec)) = true /\
       is_finite (value (profit rec)) = true) /\
  (forall fs filepath rec,
     In rec (records (pipeline_dedupe (stream_csv fs filepath))) ->
     exists encoding r row,
       open_csv fs filepath encoding = CsvOpens r /\
       In row (tl (rows_read r)) /\ csv_row_record row = Some rec) /\
  (forall fs filepath key_rev key_prof rec,
     In rec (records (pipeline_dedupe (stream_json fs filepath key_rev key_prof))) ->
     exists items item,
       load_json fs filepath = Ok (VList items) /\
       In item items /\ json_item_record key_rev key_prof item = Some rec) /\
  validate_record (VStr nbsp_arabic_twelve) (VStr "1e2")
  = ([], Ok (Some (rec_of_Z 12 100))).
Proof.
  split; [|split; [|split; [|split; [|split; [|vm_compute; reflexivity]]]]];
    repeat split.
  - unfold validate_record. rewrite H, H0. reflexivity.
  - unfold Tabulate.validate_financial_data. rewrite H, H0. reflexivity.
  - unfold validate_record.
    destruct H as [->|(rev & -> & ->)]; destruct H0 as [->| ->]; reflexivity.
  - unfold Tabulate.validate_financial_data.
    destruct H as [->|(rev & -> & ->)]; destruct H0 as [->| ->]; reflexivity.
  - intros raw_revenue raw_profit Hr Hp. unfold parses_finite in *.
    destruct (to_float raw_revenue) as [rev|] eqn:Er; [|discriminate].
    destruct (to_float raw_profit) as [prof|] eqn:Ep; [|discriminate].
    exists {| revenue := rev; profit := prof |}. simpl.
    unfold validate_record. rewrite Er, Ep. auto.
  - intros fs filepath rec H. apply in_records_stream_csv.
    eapply records_dedupe_loop_incl. exact H.
  - intros fs filepath key_rev key_prof rec H. apply in_records_stream_json.
    eapply records_dedupe_loop_incl. exact H.
Qed.

Lemma validator_accepts_what_float_converts_witness :
  validate_record (VStr "100") (VInt 10)
  = ([], Ok (Some (rec_of_Z 100 10))) /\
  validate_record (VStr "n/a") VNone
  = ([Log WARNING (SkippingInvalidRow (VStr "n/a") VNone)], Ok None) /\
  In (rec_of_Z 200 20)
     (records (pipeline_dedupe
                 (stream_csv (csv_world [["revenue"; "profit"]; ["200"; "20"]])
                             "data.csv"))).
Proof.
  split; [|split].
  - apply (proj1 validator_accepts_what_float_converts
             (VStr "100") (VInt 10) (Fresh (round_Z 100)) (Fresh (round_Z 10)));
      reflexivity.
  - apply (proj1 (proj2 validator_accepts_what_float_converts)
             (VStr "n/a") VNone ValueError);
      [left; reflexivity | left; reflexivity].
  - vm_compute. left. reflexivity.
Defined.

(** The claim of C1 fails where a value parses as a number that is not
    finite: the pair is accepted and the record reaches the output. *)
Lemma validate_record_accepts_infinity :
  parses_finite (VStr "inf") = false /\
  validate_record (VStr "inf") (VStr "1")
  = ([], Ok (Some {| revenue := Fresh (S754_infinity false);
                     profit := Fresh (round_Z 1) |})) /\
  records (pipeline_dedupe
             (stream_csv (csv_world [["revenue"; "profit"]; ["inf"; "1"]])
                         "data.csv"))
  = [{| revenue := Fresh (S754_infinity false); profit := Fresh (round_Z 1) |}].
Proof. vm_compute. auto. Qed.

Lemma append_validated_rejected (ev : Script.Event)
  (next : list Script.Event * Result (list Script.Pair)) :
  Script.append_validated ([ev], Ok None) next = (ev :: fst next, snd next).
Proof. destruct next as [evs [data|e]]; reflexivity. Qed.

(** C5, as the code has it: a raw pair whose revenue converts to zero and
    whose profit converts is accepted by the enterprise [validate_record]
    and by the tabulate [validate_financial_data], as a record whose
    margin is absent, on the CSV path and on both JSON shapes alike; the
    plain [validate_financial_data] rejects it with a warning, on its CSV
    and JSON paths alike. *)
Theorem zero_revenue_accepted_except_in_plain
  (raw_revenue raw_profit : Val) (rev prof : float_object) :
  to_float raw_revenue = Ok rev -> feqb (value rev) fzero = true ->
  to_float raw_profit = Ok prof ->
  validate_record raw_revenue raw_profit
  = ([], Ok (Some {| revenue := rev; profit := prof |})) /\
  margin {| revenue := rev; profit := prof |} = None /\
  Tabulate.validate_financial_data raw_revenue raw_profit
  = ([], Ok (Some (Script.NFloat (value rev), Script.NFloat (value prof)))) /\
  Plain.validate_financial_data raw_revenue raw_profit
  = ([Script.Err (Script.ZeroRevenue (value prof))], Ok None) /\
  (forall filepath line_num c0 c1 cols rest failure,
     raw_revenue = VStr c0 -> raw_profit = VStr c1 ->
     csv_loop filepath line_num ((c0 :: c1 :: cols) :: rest) failure
     = Yield [] {| revenue := rev; profit := prof |}
         (csv_loop filepath (S line_num) rest failure) /\
     Script.csv_loop Plain.validate_financial_data
       ((c0 :: c1 :: cols) :: rest) failure
     = (Script.Err (Script.ZeroRevenue (value prof))
          :: fst (Script.csv_loop Plain.validate_financial_data rest failure),
        snd (Script.csv_loop Plain.validate_financial_data rest failure))) /\
  (forall key_rev key_prof l rest,
     json_loop key_rev key_prof (VList (raw_revenue :: raw_profit :: l) :: rest)
     = Yield [] {| revenue := rev; profit := prof |}
         (json_loop key_rev key_prof rest) /\
     Script.json_loop Plain.validate_financial_data
       (VList (raw_revenue :: raw_profit :: l) :: rest)
     = (Script.Err (Script.ZeroRevenue (value prof))
          :: fst (Script.json_loop Plain.validate_financial_data rest),
        snd (Script.json_loop Plain.validate_financial_data rest))) /\
  (forall key_rev key_prof d rest,
     dict_get d key_rev = raw_revenue -> dict_get d key_prof = raw_profit ->
     json_loop key_rev key_prof (VDict d :: rest)
     = Yield [] {| revenue := rev; profit := prof |}
         (json_loop key_rev key_prof rest)).
Proof.
  intros Hrev Hzero Hprof.
  assert (HE : validate_record raw_revenue raw_profit
               = ([], Ok (Some {| revenue := rev; profit := prof |}))).
  { unfold validate_record. rewrite Hrev, Hprof. reflexivity. }
  assert (HP : Plain.validate_financial_data raw_revenue raw_profit
               = ([Script.Err (Script.ZeroRevenue (value prof))], Ok None)).
  { unfold Plain.validate_financial_data. rewrite Hrev, Hprof, Hzero.
    reflexivity. }
  split; [exact HE|]. split; [unfold margin; simpl; rewrite Hzero; reflexivity|].
  split; [unfold Tabulate.validate_financial_data; rewrite Hrev, Hprof;
          reflexivity|].
  split; [exact HP|]. split; [|split].
  - intros filepath line_num c0 c1 cols rest failure -> ->. split.
    + simpl. rewrite HE. reflexivity.
    + simpl. rewrite HP. apply append_validated_rejected.
  - intros key_rev key_prof l rest. split.
    + simpl. rewrite HE. reflexivity.
    + simpl. rewrite HP. apply append_validated_rejected.
  - intros key_rev key_prof d rest <- <-. simpl. rewrite HE. reflexivity.
Qed.

Lemma zero_revenue_accepted_except_in_plain_witness :
  validate_record (VStr "0") (VStr "5")
  = ([], Ok (Some {| revenue := Fresh fzero; profit := Fresh (round_Z 5) |})) /\
  Plain.validate_financial_data (VStr "0") (VStr "5")
  = ([Script.Err (Script.ZeroRevenue (round_Z 5))], Ok None).
Proof.
  destruct (zero_revenue_accepted_except_in_plain
              (VStr "0") (VStr "5") (Fresh fzero) (Fresh (round_Z 5)))
    as (HE & _ & _ & HP & _); [reflexivity|reflexivity|reflexivity|].
  split; [exact HE|exact HP].
Defined.

(** The claim of C5 fails on the plain script: its validator returns no
    tuple for a zero revenue, and the row is missing from the data loaded
    from a CSV file and from a JSON file. *)
Lemma plain_rejects_zero_revenue :
  to_float (VStr "0") = Ok (Fresh fzero) /\
  to_float (VStr "5") = Ok (Fresh (round_Z 5)) /\
  Plain.validate_financial_data (VStr "0") (VStr "5")
  = ([Script.Err (Script.ZeroRevenue (round_Z 5))], Ok None) /\
  Plain.load_data_from_csv (csv_world [["revenue"; "profit"]; ["0"; "5"]])
                           "data.csv"
  = ([Script.Err (Script.ZeroRevenue (round_Z 5))], []) /\
  Plain.load_data_from_json
    (json_world (VList [VDict [("revenue", VInt 0); ("profit", VInt 5)]]))
    "data.json"
  = ([Script.Err (Script.ZeroRevenue (round_Z 5))], []).
Proof. vm_compute. auto 6. Qed.

(** ** Row-level failures *)

Lemma present_in {A} (l : list (option A)) (x : A) :
  In (Some x) l -> In x (present l).
Proof.
  induction l as [|[y|] t IH]; simpl; auto.
  - intros [[= ->]|H]; auto.
  - intros [H|H]; [discriminate|auto].
Qed.

(** Every row of the CSV loop gives a record or exactly one warning. *)
Lemma events_csv_loop filepath rows : forall line_num,
  Forall is_warning (events (csv_loop filepath line_num rows None)) /\
  List.length (events (csv_loop filepath line_num rows None))
  + List.length (records (csv_loop filepath line_num rows None))
  = List.length rows.
Proof.
  induction rows as [|row rest IH]; intros line_num; simpl.
  - split; [constructor|reflexivity].
  - destruct (IH (S line_num)) as [Hall Hlen].
    destruct row as [|c0 [|c1 cols]]; simpl;
      try (rewrite events_prepend, records_prepend; simpl; split;
           [constructor; [reflexivity|assumption] | lia]).
    rewrite validate_record_in_range by apply overflows_str.
    destruct (pair_record (VStr c0) (VStr c1)); simpl.
    + split; [assumption|lia].
    + rewrite events_prepend, records_prepend. simpl. split;
        [constructor; [reflexivity|assumption] | lia].
Qed.

(** Every item of the JSON loop that has the shape of a pair gives a
    record or exactly one warning; the other items give neither. *)
Lemma events_json_loop key_rev key_prof items :
  forallb (item_in_range key_rev key_prof) items = true ->
  Forall is_warning (events (json_loop key_rev key_prof items)) /\
  List.length (events (json_loop key_rev key_prof items))
  + List.length (records (json_loop key_rev key_prof items))
  = List.length (present (map (json_item_pair key_rev key_prof) items)).
Proof.
  induction items as [|item rest IH]; simpl.
  - intros _. split; [constructor|reflexivity].
  - intros H. apply andb_true_iff in H as [Hitem Hrest].
    destruct (IH Hrest) as [Hall Hlen]. clear IH.
    unfold item_in_range in Hitem.
    assert (Hpair : forall r p rest',
      negb (overflows r) && negb (overflows p) = true ->
      Forall is_warning (events rest') ->
      Forall is_warning
        (events (yield_validated UnexpectedJsonError (validate_record r p) rest'))
      /\ List.length
           (events (yield_validated UnexpectedJsonError (validate_record r p) rest'))
         + List.length
             (records (yield_validated UnexpectedJsonError (validate_record r p) rest'))
         = S (List.length (events rest') + List.length (records rest'))).
    { intros r p rest' Hrange Hw.
      apply andb_true_iff in Hrange as [H0 H1].
      apply negb_true_iff in H0, H1.
      rewrite validate_record_in_range by assumption.
      destruct (pair_record r p); simpl.
      - split; [assumption|lia].
      - rewrite events_prepend, records_prepend. simpl. split;
          [constructor; [reflexivity|assumption] | lia]. }
    destruct item as [| | | | |l|d]; simpl in *; try (split; assumption).
    + destruct l as [|x0 [|x1 l]]; simpl in *; try (split; assumption).
      destruct (Hpair x0 x1 (json_loop key_rev key_prof rest) Hitem Hall)
        as [Hw Hl].
      split; [exact Hw|]. rewrite Hl, Hlen. reflexivity.
    + destruct (Hpair (dict_get d key_rev) (dict_get d key_prof)
                  (json_loop key_rev key_prof rest) Hitem Hall) as [Hw Hl].
      split; [exact Hw|]. rewrite Hl, Hlen. reflexivity.
Qed.

(** C4, as the code has it: a row-level failure drops the offending row or
    item only.  In the CSV loop every row gives its record or one warning,
    the records are those of the valid rows in file order, wherever the
    invalid rows stand, and the loop ends normally.  In the JSON loop, for
    items whose numbers fit a float, every item of pair shape gives its
    record or one warning, an item of another shape is dropped without a
    diagnostic, the records are those of the valid items in document
    order, and the loop ends normally. *)
Theorem row_failures_drop_only_the_row :
  (forall filepath line_num rows,
     ending (csv_loop filepath line_num rows None) = None /\
     records (csv_loop filepath line_num rows None)
     = present (map csv_row_record rows) /\
     Forall is_warning (events (csv_loop filepath line_num rows None)) /\
     List.length (events (csv_loop filepath line_num rows None))
     + List.length (records (csv_loop filepath line_num rows None))
     = List.length rows) /\
  (forall filepath line_num earlier row later rec,
     csv_row_record row = Some rec ->
     In rec (records (csv_loop filepath line_num (earlier ++ row :: later) None))) /\
  (forall key_rev key_prof items,
     forallb (item_in_range key_rev key_prof) items = true ->
     ending (json_loop key_rev key_prof items) = None /\
     records (json_loop key_rev key_prof items)
     = present (map (json_item_record key_rev key_prof) items) /\
     Forall is_warning (events (json_loop key_rev key_prof items)) /\
     List.length (events (json_loop key_rev key_prof items))
     + List.length (records (json_loop key_rev key_prof items))
     = List.length (present (map (json_item_pair key_rev key_prof) items))) /\
  (forall key_rev key_prof earlier item later rec,
     forallb (item_in_range key_rev key_prof) (earlier ++ item :: later) = true ->
     json_item_record key_rev key_prof item = Some rec ->
     In rec (records (json_loop key_rev key_prof (earlier ++ item :: later)))).
Proof.
  split; [|split; [|split]].
  - intros filepath line_num rows.
    split; [apply ending_csv_loop|]. split; [apply records_csv_loop|].
    apply events_csv_loop.
  - intros filepath line_num earlier row later rec Hrec.
    rewrite records_csv_loop. apply present_in. rewrite <- Hrec.
    apply in_map, in_elt.
  - intros key_rev key_prof items Hrange.
    split; [apply ending_json_loop; assumption|].
    split; [apply records_json_loop; assumption|].
    apply events_json_loop; assumption.
  - intros key_rev key_prof earlier item later rec Hrange Hrec.
    rewrite records_json_loop by assumption. apply present_in.
    rewrite <- Hrec. apply in_map, in_elt.
Qed.

Lemma row_failures_drop_only_the_row_witness :
  In (rec_of_Z 200 20)
     (records (csv_loop "data.csv" 2 ([["x"; "10"]; ["7"]] ++ ["200"; "20"] :: []) None))
  /\
  In (rec_of_Z 200 20)
     (records (json_loop "revenue" "profit"
                 ([VStr "x"; VList [VInt 1; VNone]] ++ VList [VInt 200; VInt 20] :: []))).
Proof.
  split.
  - apply (proj1 (proj2 row_failures_drop_only_the_row)). reflexivity.
  - apply (proj2 (proj2 (proj2 row_failures_drop_only_the_row)));
      reflexivity.
Defined.

(** The claim of C4 fails on the JSON path for an item that is neither an
    object nor a list of two values: it is dropped and no diagnostic is
    emitted. *)
Lemma json_item_dropped_without_diagnostic :
  json_item_record "revenue" "profit" (VList [VInt 1]) = None /\
  stream_json (json_world (VList [VList [VInt 1]; VList [VInt 100; VInt 10]]))
              "data.json" "revenue" "profit"
  = Yield [] (rec_of_Z 100 10) (Done []) /\
  events (stream_json
            (json_world (VList [VList [VInt 1]; VList [VInt 100; VInt 10]]))
            "data.json" "revenue" "profit")
  = [].
Proof. vm_compute. auto. Qed.

(** ** The report of a run *)

Lemma prints_app (a b : list Event) : prints (a ++ b) = prints a ++ prints b.
Proof.
  induction a as [|[entry|line] a IH]; simpl; [reflexivity|assumption|].
  f_equal. assumption.
Qed.

Lemma logs_app (a b : list Event) : logs (a ++ b) = logs a ++ logs b.
Proof.
  induction a as [|[entry|line] a IH]; simpl; [reflexivity| |assumption].
  f_equal. assumption.
Qed.

Lemma prints_logged (evs : list Entry) : prints (map Logged evs) = [].
Proof. induction evs; simpl; auto. Qed.

Lemma logs_logged (evs : list Entry) : logs (map Logged evs) = evs.
Proof. induction evs; simpl; congruence. Qed.

(** What [format_table] does with a stream: it logs what the stream logs,
    prints one line per record as the records come, and prints the closing
    lines only if the stream ends normally; otherwise the exception or the
    exit goes on to the caller. *)
Lemma table_loop_report (g : gen FinancialRecord) : forall count total,
  snd (table_loop count total g) = ending g /\
  logs (fst (table_loop count total g)) = events g /\
  prints (fst (table_loop count total g))
  = map row_line (records g)
    ++ match ending g with
       | None => [Rule; Totals (count + List.length (records g))
                          (fold_left fadd (map revenue_value (records g)) total)]
       | Some _ => []
       end.
Proof.
  induction g as [evs rec rest IH|evs|evs r]; intros count total; simpl.
  - specialize (IH (S count) (fadd total (value (revenue rec)))).
    destruct (table_loop (S count) (fadd total (value (revenue rec))) rest)
      as [tr out].
    simpl in *. destruct IH as (Hout & Hlogs & Hprints).
    split; [assumption|]. split.
    + rewrite logs_app, logs_logged. simpl. congruence.
    + rewrite prints_app, prints_logged. simpl. rewrite Hprints.
      unfold row_line at 2. f_equal. f_equal.
      destruct (ending rest); [reflexivity|].
      rewrite Nat.add_succ_r. reflexivity.
  - split; [reflexivity|]. split.
    + rewrite logs_app, logs_logged. simpl. apply app_nil_r.
    + rewrite prints_app, prints_logged. simpl.
      rewrite Nat.add_0_r. reflexivity.
  - split; [reflexivity|]. split; [apply logs_logged|apply prints_logged].
Qed.

(** A stream that ends with an exception or an exit passes the filter
    with its log and its end unchanged. *)
Lemma dedupe_loop_aborted (g : gen FinancialRecord) : forall seen n r,
  ending g = Some r ->
  ending (dedupe_loop seen n g) = Some r /\
  events (dedupe_loop seen n g) = events g.
Proof.
  induction g as [evs x rest IH|evs|evs r']; intros seen n r; simpl;
    [|discriminate|auto].
  intros H. destruct (seen_contains seen x).
  - rewrite ending_prepend, events_prepend.
    destruct (IH seen (S n) r H) as [-> ->]. auto.
  - simpl. destruct (IH (x :: seen) n r H) as [-> ->]. auto.
Qed.

Lemma events_csv_loop_failure filepath e rows : forall line_num,
  events (csv_loop filepath line_num rows (Some e))
  = events (csv_loop filepath line_num rows None)
    ++ [Log ERROR (FailedToReadCsv filepath e)].
Proof.
  induction rows as [|row rest IH]; intros line_num; simpl; [reflexivity|].
  destruct row as [|c0 [|c1 cols]]; simpl;
    try (rewrite !events_prepend, IH; reflexivity).
  rewrite validate_record_in_range by apply overflows_str.
  destruct (pair_record (VStr c0) (VStr c1)); simpl.
  - apply IH.
  - rewrite !events_prepend, IH. reflexivity.
Qed.

(** The trace of [main] for a stream [stream]: the lines it prints, the
    entries it logs and how it ends. *)
Lemma report_of_stream (file : string) (stream : gen FinancialRecord) :
  forall tr out,
  format_table (pipeline_dedupe stream) = (tr, out) ->
  out = ending (pipeline_dedupe stream) /\
  logs (Print (Generating file) :: tr) = events (pipeline_dedupe stream) /\
  prints (Print (Generating file) :: tr)
  = Generating file :: Header :: Rule
    :: map row_line (records (pipeline_dedupe stream))
    ++ match ending (pipeline_dedupe stream) with
       | None =>
           [Rule;
            Totals (List.length (records (pipeline_dedupe stream)))
              (fold_left fadd
                 (map revenue_value (records (pipeline_dedupe stream))) fzero)]
       | Some _ => []
       end.
Proof.
  intros tr out. unfold format_table.
  pose proof (table_loop_report (pipeline_dedupe stream) 0 fzero) as H.
  destruct (table_loop 0 fzero (pipeline_dedupe stream)) as [tr' out'].
  simpl in H. destruct H as (Hout & Hlogs & Hprints).
  intros [= <- <-]. simpl. rewrite Hprints. auto.
Qed.

Lemma main_csv fs args :
  endswith (file args) ".csv" = true ->
  snd (main fs args) = ending (pipeline_dedupe (stream_csv fs (file args))) /\
  logs (fst (main fs args)) = events (pipeline_dedupe (stream_csv fs (file args))) /\
  prints (fst (main fs args))
  = Generating (file args) :: Header :: Rule
    :: map row_line (records (pipeline_dedupe (stream_csv fs (file args))))
    ++ match ending (pipeline_dedupe (stream_csv fs (file args))) with
       | None =>
           [Rule;
            Totals (List.length
                      (records (pipeline_dedupe (stream_csv fs (file args)))))
              (fold_left fadd
                 (map revenue_value
                    (records (pipeline_dedupe (stream_csv fs (file args)))))
                 fzero)]
       | Some _ => []
       end.
Proof.
  intros Hcsv. unfold main. rewrite Hcsv.
  pose proof (report_of_stream (file args) (stream_csv fs (file args))) as H.
  destruct (format_table (pipeline_dedupe (stream_csv fs (file args))))
    as [tr out].
  destruct (H tr out eq_refl) as (-> & Hlogs & Hprints). auto.
Qed.

(** ** Input and output failures *)

Lemma plain_validate_str (a b : string) :
  exists evs v,
    Plain.validate_financial_data (VStr a) (VStr b) = (evs, Ok v).
Proof.
  unfold Plain.validate_financial_data. simpl.
  destruct (float_of_str a) as [rev|e] eqn:Ea; simpl.
  - destruct (float_of_str b) as [prof|e] eqn:Eb; simpl.
    + destruct (feqb rev fzero); eauto.
    + apply float_of_str_raises in Eb. subst. simpl. eauto.
  - apply float_of_str_raises in Ea. subst. simpl. eauto.
Qed.

Lemma plain_csv_loop_failure (e : Exn) (rows : list (list string)) :
  snd (Script.csv_loop Plain.validate_financial_data rows (Some e)) = Raise e.
Proof.
  induction rows as [|row rest IH]; simpl; [reflexivity|].
  destruct row as [|c0 [|c1 cols]]; simpl; try exact IH.
  destruct (plain_validate_str c0 c1) as (evs & v & ->).
  destruct (Script.csv_loop Plain.validate_financial_data rest (Some e))
    as [evs' [data|e']]; simpl in *; [discriminate|assumption].
Qed.

Lemma endswith_nonempty (path suffix : string) :
  endswith path suffix = true -> suffix <> "" -> path <> "".
Proof.
  intros H Hs ->. unfold endswith in H. simpl in H.
  destruct suffix; [congruence|discriminate].
Qed.

Lemma plain_main_csv fs path :
  endswith path ".csv" = true ->
  Plain.main fs (Some path)
  = (fst (Plain.load_data_from_csv fs path)
       ++ fst (Plain.format_and_print_table
                 (snd (Plain.load_data_from_csv fs path))),
     snd (Plain.format_and_print_table (snd (Plain.load_data_from_csv fs path)))).
Proof.
  intros H. unfold Plain.main, Script.load.
  destruct path as [|c path]; [discriminate|].
  rewrite H. fold Plain.load_data_from_csv.
  destruct (Plain.load_data_from_csv fs (String c path)) as [evs data].
  simpl. destruct (Plain.format_and_print_table data). reflexivity.
Qed.

(** C7, as the code has it.  Enterprise script: once the encoding is
    probed, a failure to open the CSV file or to read on from it makes the
    reader log an error and the process exit with status 1; the report is
    printed while the stream is consumed, so the heading and the rows of
    the records read before the failure are printed, and the closing lines
    are not.  Plain script: the failure is printed on standard error, the
    data is taken as empty and the run ends normally after the notice that
    there is nothing to display. *)
Theorem csv_read_failure_ends_the_run :
  (forall fs args evs encoding e,
     endswith (file args) ".csv" = true ->
     detect_encoding fs (file args) = (evs, Ok encoding) ->
     open_csv fs (file args) encoding = CsvOpenFails e ->
     snd (main fs args) = Some (SysExit 1) /\
     exit_status (snd (main fs args)) = 1%Z /\
     logs (fst (main fs args))
     = evs ++ [Log ERROR (FailedToReadCsv (file args) e)] /\
     prints (fst (main fs args)) = [Generating (file args); Header; Rule]) /\
  (forall fs args evs encoding r e,
     endswith (file args) ".csv" = true ->
     detect_encoding fs (file args) = (evs, Ok encoding) ->
     open_csv fs (file args) encoding = CsvOpens r ->
     read_failure r = Some e ->
     snd (main fs args) = Some (SysExit 1) /\
     exit_status (snd (main fs args)) = 1%Z /\
     logs (fst (main fs args))
     = evs ++ events (csv_loop (file args) 2 (tl (rows_read r)) None)
           ++ [Log ERROR (FailedToReadCsv (file args) e)] /\
     prints (fst (main fs args))
     = Generating (file args) :: Header :: Rule
       :: map row_line
            (first_occurrences []
               (present (map csv_row_record (tl (rows_read r)))))) /\
  (forall fs path e,
     endswith path ".csv" = true ->
     open_csv fs path UTF8 = CsvOpenFails e \/
     (exists r, open_csv fs path UTF8 = CsvOpens r /\ read_failure r = Some e) ->
     exists evs,
       Plain.main fs (Some path)
       = (evs ++ [Script.Err (Script.ErrorReadingCsv e);
                  Script.Out Script.NoValidData], None) /\
       Script.exit_status (snd (Plain.main fs (Some path))) = 0%Z).
Proof.
  split; [|split].
  - intros fs args evs encoding e Hcsv Hprobe Hopen.
    destruct (main_csv fs args Hcsv) as (Hout & Hlogs & Hprints).
    assert (Hs : stream_csv fs (file args)
                 = Abort (evs ++ [Log ERROR (FailedToReadCsv (file args) e)])
                         (SysExit 1)).
    { unfold stream_csv. rewrite Hprobe, Hopen. reflexivity. }
    rewrite Hs in *. simpl in *. rewrite Hout. auto.
  - intros fs args evs encoding r e Hcsv Hprobe Hopen Hfail.
    destruct (main_csv fs args Hcsv) as (Hout & Hlogs & Hprints).
    assert (Hs : stream_csv fs (file args)
                 = prepend evs (csv_loop (file args) 2 (tl (rows_read r)) (Some e))).
    { unfold stream_csv. rewrite Hprobe, Hopen, Hfail. reflexivity. }
    assert (Hend : ending (stream_csv fs (file args)) = Some (SysExit 1)).
    { rewrite Hs, ending_prepend, ending_csv_loop. reflexivity. }
    unfold pipeline_dedupe in *.
    destruct (dedupe_loop_aborted _ [] 0 _ Hend) as [Hend' Hev].
    rewrite Hend' in *. rewrite Hout, Hlogs, Hprints, Hev.
    rewrite (dedupe_loop_first_occurrences _ [] [] 0) by reflexivity.
    rewrite Hs, events_prepend, records_prepend, events_csv_loop_failure,
      records_csv_loop, app_nil_r.
    auto.
  - intros fs path e Hcsv Hfail.
    rewrite (plain_main_csv fs path Hcsv).
    unfold Plain.load_data_from_csv, Script.load_data_from_csv.
    destruct Hfail as [->|(r & -> & ->)].
    + exists []. simpl. auto.
    + pose proof (plain_csv_loop_failure e (tl (rows_read r))) as H.
      destruct (Script.csv_loop Plain.validate_financial_data
                  (tl (rows_read r)) (Some e)) as [evs res].
      simpl in H. subst res. exists evs. simpl.
      rewrite <- app_assoc. simpl. auto.
Qed.

Lemma csv_read_failure_ends_the_run_witness :
  exit_status
    (snd (main (failing_csv_world [["revenue"; "profit"]; ["100"; "10"]]
                                  UnicodeDecodeError)
               {| file := "data.csv"; rev_key := "revenue"; prof_key := "profit" |}))
  = 1%Z /\
  exists evs,
    Plain.main empty_world (Some "data.csv")
    = (evs ++ [Script.Err (Script.ErrorReadingCsv FileNotFoundError);
               Script.Out Script.NoValidData], None) /\
    Script.exit_status (snd (Plain.main empty_world (Some "data.csv"))) = 0%Z.
Proof.
  split.
  - apply (proj1 (proj2 csv_read_failure_ends_the_run)
             (failing_csv_world [["revenue"; "profit"]; ["100"; "10"]]
                                UnicodeDecodeError)
             {| file := "data.csv"; rev_key := "revenue"; prof_key := "profit" |}
             [] UTF8
             {| rows_read := [["revenue"; "profit"]; ["100"; "10"]];
                read_failure := Some UnicodeDecodeError |}
             UnicodeDecodeError); reflexivity.
  - apply (proj2 (proj2 csv_read_failure_ends_the_run)
             empty_world "data.csv" FileNotFoundError);
      [reflexivity | left; reflexivity].
Defined.

(** The claim of C7 fails in two ways.  In the enterprise script a read
    that fails further down the file, on a byte beyond the chunk the probe
    decoded, leaves the heading and the row read before it printed.  In
    the plain script a file that cannot be opened ends the run normally,
    with status 0. *)
Lemma csv_read_failure_leaves_output :
  main (failing_csv_world [["revenue"; "profit"]; ["100"; "10"]]
                          UnicodeDecodeError)
       {| file := "data.csv"; rev_key := "revenue"; prof_key := "profit" |}
  = ([Print (Generating "data.csv"); Print Header; Print Rule;
      Print (row_line (rec_of_Z 100 10));
      Logged (Log ERROR (FailedToReadCsv "data.csv" UnicodeDecodeError))],
     Some (SysExit 1)) /\
  Plain.main empty_world (Some "data.csv")
  = ([Script.Err (Script.ErrorReadingCsv FileNotFoundError);
      Script.Out Script.NoValidData], None) /\
  Script.exit_status (snd (Plain.main empty_world (Some "data.csv"))) = 0%Z.
Proof. vm_compute. auto. Qed.

(** A file that cannot be opened at all is met first by the encoding
    probe, outside the reader's [try]: the exception leaves the program
    uncaught and no error is logged. *)
Lemma probe_failure_is_not_logged :
  main empty_world
       {| file := "data.csv"; rev_key := "revenue"; prof_key := "profit" |}
  = ([Print (Generating "data.csv"); Print Header; Print Rule],
     Some (Exc FileNotFoundError)).
Proof. reflexivity. Qed.

(** An int beyond the float range raises [OverflowError], which the
    validator does not catch: the JSON reader logs an error and exits. *)
Lemma json_int_overflow_is_fatal :
  stream_json
    (json_world (VList [VList [VInt (10 ^ 400); VInt 1];
                        VList [VInt 100; VInt 10]]))
    "data.json" "revenue" "profit"
  = Abort [Log ERROR (UnexpectedJsonError OverflowError)] (SysExit 1).
Proof. vm_compute. reflexivity. Qed.

(** ** Choice of the reader *)

(** C8, as the code has it: for a path that ends in neither [.csv] nor
    [.json], the enterprise script builds no stream, prints nothing, logs
    an error and exits with status 1; the plain and tabulate scripts, for
    such a path that is not empty, print a message, load and print no
    data, and end normally, with status 0. *)
Theorem unsupported_extension_yields_no_report (fs : Files) (args : Args) :
  endswith (file args) ".csv" = false ->
  endswith (file args) ".json" = false ->
  main fs args = ([Logged (Log ERROR UnsupportedExtension)], Some (SysExit 1)) /\
  exit_status (snd (main fs args)) = 1%Z /\
  prints (fst (main fs args)) = [] /\
  (file args <> "" ->
   Plain.main fs (Some (file args)) = ([Script.Out Script.MustBeCsvOrJson], None) /\
   Script.exit_status (snd (Plain.main fs (Some (file args)))) = 0%Z /\
   forall format,
     Tabulate.main fs (Some (file args)) format
     = ([Script.Out Script.MustBeCsvOrJson], None)).
Proof.
  intros Hcsv Hjson.
  assert (H : main fs args
              = ([Logged (Log ERROR UnsupportedExtension)], Some (SysExit 1))).
  { unfold main. rewrite Hcsv, Hjson. reflexivity. }
  rewrite H. repeat split.
  - unfold Plain.main, Script.load.
    destruct (file args) as [|c path]; [congruence|].
    rewrite Hcsv, Hjson. reflexivity.
  - unfold Plain.main, Script.load.
    destruct (file args) as [|c path]; [congruence|].
    rewrite Hcsv, Hjson. reflexivity.
  - intros format. unfold Tabulate.main, Script.load.
    destruct (file args) as [|c path]; [congruence|].
    rewrite Hcsv, Hjson. reflexivity.
Qed.

Lemma unsupported_extension_yields_no_report_witness :
  main empty_world
       {| file := "data.txt"; rev_key := "revenue"; prof_key := "profit" |}
  = ([Logged (Log ERROR UnsupportedExtension)], Some (SysExit 1)).
Proof.
  apply (unsupported_extension_yields_no_report empty_world
           {| file := "data.txt"; rev_key := "revenue"; prof_key := "profit" |});
    reflexivity.
Defined.

(** The claim of C8 fails on the plain script: for [data.txt] it prints
    its message and returns, and the process ends with status 0. *)
Lemma plain_unsupported_extension_exits_zero :
  endswith "data.txt" ".csv" = false /\
  endswith "data.txt" ".json" = false /\
  Plain.main empty_world (Some "data.txt")
  = ([Script.Out Script.MustBeCsvOrJson], None) /\
  Script.exit_status (snd (Plain.main empty_world (Some "data.txt"))) = 0%Z.
Proof. vm_compute. auto. Qed.

(** ** The header row *)

Lemma records_stream_csv fs filepath evs encoding r :
  detect_encoding fs filepath = (evs, Ok encoding) ->
  open_csv fs filepath encoding = CsvOpens r ->
  records (stream_csv fs filepath)
  = present (map csv_row_record (tl (rows_read r))).
Proof.
  intros Hprobe Hopen. unfold stream_csv. rewrite Hprobe, Hopen.
  rewrite records_prepend. apply records_csv_loop.
Qed.

(** C9: the CSV reader discards the first row and no other, whatever the
    first row holds: the records it yields are those of the valid rows
    after the first, so two files that differ in their first row only
    give the same stream; the rows [header, (100,10), (200,20)] give two
    records, and of the rows [(100,10), (200,20)] the first is lost.  The
    plain loader does the same. *)
Theorem csv_reader_discards_first_row :
  (forall fs filepath evs encoding r,
     detect_encoding fs filepath = (evs, Ok encoding) ->
     open_csv fs filepath encoding = CsvOpens r ->
     records (stream_csv fs filepath)
     = present (map csv_row_record (tl (rows_read r)))) /\
  (forall first first' rest filepath,
     stream_csv (csv_world (first :: rest)) filepath
     = stream_csv (csv_world (first' :: rest)) filepath /\
     Plain.load_data_from_csv (csv_world (first :: rest)) filepath
     = Plain.load_data_from_csv (csv_world (first' :: rest)) filepath) /\
  records (stream_csv
             (csv_world [["revenue"; "profit"]; ["100"; "10"]; ["200"; "20"]])
             "data.csv")
  = [rec_of_Z 100 10; rec_of_Z 200 20] /\
  records (stream_csv (csv_world [["100"; "10"]; ["200"; "20"]]) "data.csv")
  = [rec_of_Z 200 20] /\
  snd (Plain.load_data_from_csv
         (csv_world [["revenue"; "profit"]; ["100"; "10"]; ["200"; "20"]])
         "data.csv")
  = [(Script.NFloat (round_Z 100), Script.NFloat (round_Z 10));
     (Script.NFloat (round_Z 200), Script.NFloat (round_Z 20))] /\
  snd (Plain.load_data_from_csv (csv_world [["100"; "10"]; ["200"; "20"]])
                                "data.csv")
  = [(Script.NFloat (round_Z 200), Script.NFloat (round_Z 20))].
Proof.
  split; [exact records_stream_csv|].
  split; [intros; split; reflexivity|].
  vm_compute. auto 6.
Qed.

Lemma csv_reader_discards_first_row_witness :
  records (stream_csv (csv_world [["100"; "10"]; ["200"; "20"]]) "data.csv")
  = present (map csv_row_record [["200"; "20"]]).
Proof.
  apply (proj1 csv_reader_discards_first_row
           (csv_world [["100"; "10"]; ["200"; "20"]]) "data.csv" [] UTF8
           {| rows_read := [["100"; "10"]; ["200"; "20"]];
              read_failure := None |});
    reflexivity.
Defined.

(** ** The built-in dataset *)

(** C10: without a file argument the plain and the tabulate script do not
    fail: they take the built-in dataset of four pairs, (1000,10),
    (2000,17), (2500,170), (2500,-170), and print the table of these four
    rows, each with its percentage. *)
Theorem no_file_argument_uses_builtin_dataset :
  Script.load_data_from_hardcoded
  = [(Script.NInt 1000, Script.NInt 10); (Script.NInt 2000, Script.NInt 17);
     (Script.NInt 2500, Script.NInt 170); (Script.NInt 2500, Script.NInt (-170))] /\
  (forall fs,
     Plain.main fs None
     = ([Script.Out Script.Header; Script.Out Script.Rule;
         Script.Out (Script.Row (Script.NInt 1000) (Script.NInt 10)
                                (Some (of_decimal false 1 (-2))));
         Script.Out (Script.Row (Script.NInt 2000) (Script.NInt 17)
                                (Some (of_decimal false 85 (-4))));
         Script.Out (Script.Row (Script.NInt 2500) (Script.NInt 170)
                                (Some (of_decimal false 68 (-3))));
         Script.Out (Script.Row (Script.NInt 2500) (Script.NInt (-170))
                                (Some (of_decimal true 68 (-3))))],
        None)) /\
  (forall fs format,
     Tabulate.main fs None format
     = ([Script.Out
           (Script.Table
              [(Script.NInt 1000, Script.NInt 10, Some (of_decimal false 1 (-2)));
               (Script.NInt 2000, Script.NInt 17, Some (of_decimal false 85 (-4)));
               (Script.NInt 2500, Script.NInt 170, Some (of_decimal false 68 (-3)));
               (Script.NInt 2500, Script.NInt (-170),
                Some (of_decimal true 68 (-3)))]
              format)],
        None)).
Proof.
  split; [reflexivity|]. split.
  - intros fs. vm_compute. reflexivity.
  - intros fs format. vm_compute. reflexivity.
Qed.

(** ** Further properties of the deduplication filter *)

Lemma dedupe_loop_distinct (g : gen FinancialRecord) : forall seen n,
  Forall (fun x => seen_contains seen x = false)
         (records (dedupe_loop seen n g)) /\
  ForallOrdPairs (fun a b => record_eqb a b = false)
                 (records (dedupe_loop seen n g)).
Proof.
  induction g as [evs x rest IH|evs|evs r]; intros seen n; simpl;
    try (split; constructor).
  destruct (seen_contains seen x) eqn:Hin.
  - rewrite records_prepend. apply IH.
  - simpl. destruct (IH (x :: seen) n) as [Hseen Hpairs].
    assert (Hx : Forall (fun y => record_eqb x y = false /\
                                  seen_contains seen y = false)
                        (records (dedupe_loop (x :: seen) n rest))).
    { eapply Forall_impl; [|exact Hseen]. intros y Hy.
      unfold seen_contains in *. simpl in Hy.
      apply orb_false_iff in Hy. exact Hy. }
    split.
    + constructor; [assumption|].
      eapply Forall_impl; [|exact Hx]. intros y [_ Hy]. exact Hy.
    + constructor; [|assumption].
      eapply Forall_impl; [|exact Hx]. intros y [Hy _]. exact Hy.
Qed.

(** X1: no two records that the Deduplication Filter yields are equal:
    a record of the output differs from every record yielded after it. *)
Theorem pipeline_dedupe_output_distinct (stream : gen FinancialRecord) :
  ForallOrdPairs (fun a b => record_eqb a b = false)
                 (records (pipeline_dedupe stream)).
Proof. apply (dedupe_loop_distinct stream [] 0). Qed.

Lemma ending_dedupe_loop (g : gen FinancialRecord) : forall seen n,
  ending (dedupe_loop seen n g) = ending g.
Proof.
  induction g as [evs x rest IH|evs|evs r]; intros seen n; simpl;
    try reflexivity.
  destruct (seen_contains seen x); [rewrite ending_prepend|simpl]; apply IH.
Qed.

Lemma dedupe_loop_log (g : gen FinancialRecord) : forall seen n,
  ending g = None ->
  exists k,
    List.length (records g)
    = (List.length (records (dedupe_loop seen n g)) + k)%nat /\
    events (dedupe_loop seen n g)
    = events g ++ if (0 <? n + k)%nat
                  then [Log INFO (RemovedDuplicates (n + k))]
                  else [].
Proof.
  induction g as [evs x rest IH|evs|evs r]; intros seen n; simpl;
    [| |discriminate].
  - intros Hend. destruct (seen_contains seen x).
    + destruct (IH seen (S n) Hend) as (k & Hlen & Hev).
      exists (S k). rewrite records_prepend, events_prepend, Hev. split.
      * lia.
      * rewrite <- app_assoc. replace (n + S k)%nat with (S n + k)%nat by lia.
        reflexivity.
    + destruct (IH (x :: seen) n Hend) as (k & Hlen & Hev).
      exists k. simpl. rewrite Hev. split.
      * lia.
      * rewrite <- app_assoc. reflexivity.
  - intros _. exists 0%nat. rewrite Nat.add_0_r. auto.
Qed.

(** X2: the Deduplication Filter ends as its input ends, passing on an
    exception or an exit.  When the input ends normally the filter logs
    what the input logs and then, if it dropped any record, one entry that
    carries the number of records dropped; when it dropped none it adds
    nothing, and when the input is cut short it adds nothing either. *)
Theorem pipeline_dedupe_reports_dropped (stream : gen FinancialRecord) :
  ending (pipeline_dedupe stream) = ending stream /\
  (List.length (records (pipeline_dedupe stream))
   <= List.length (records stream))%nat /\
  (ending stream = None ->
   events (pipeline_dedupe stream)
   = events stream
     ++ if (List.length (records (pipeline_dedupe stream))
            <? List.length (records stream))%nat
        then [Log INFO
                (RemovedDuplicates
                   (List.length (records stream)
                    - List.length (records (pipeline_dedupe stream))))]
        else []) /\
  (forall r, ending stream = Some r ->
   events (pipeline_dedupe stream) = events stream).
Proof.
  unfold pipeline_dedupe. split; [apply ending_dedupe_loop|].
  assert (Hle : forall (g : gen FinancialRecord) seen n,
            (List.length (records (dedupe_loop seen n g))
             <= List.length (records g))%nat).
  { induction g as [evs x rest IH|evs|evs r]; intros seen n; simpl; auto.
    destruct (seen_contains seen x).
    - rewrite records_prepend. specialize (IH seen (S n)). lia.
    - simpl. specialize (IH (x :: seen) n). lia. }
  split; [apply Hle|]. split.
  - intros Hend. destruct (dedupe_loop_log stream [] 0 Hend) as (k & Hlen & Hev).
    rewrite Hev. simpl. f_equal. destruct k as [|k].
    + replace (List.length (records stream))
        with (List.length (records (dedupe_loop [] 0 stream))) by lia.
      rewrite !Nat.ltb_irrefl. reflexivity.
    + replace (List.length (records (dedupe_loop [] 0 stream))
               <? List.length (records stream))%nat
        with true by (symmetry; apply Nat.ltb_lt; lia).
      simpl. repeat f_equal. lia.
  - intros r Hend. apply (dedupe_loop_aborted stream [] 0 r Hend).
Qed.

Lemma pipeline_dedupe_reports_dropped_witness :
  events (pipeline_dedupe
            (iter [rec_of_Z 100 10; rec_of_Z 200 20; rec_of_Z 100 10]))
  = [Log INFO (RemovedDuplicates 1)].
Proof.
  apply (proj1 (proj2 (proj2 (pipeline_dedupe_reports_dropped
           (iter [rec_of_Z 100 10; rec_of_Z 200 20; rec_of_Z 100 10]))))).
  reflexivity.
Defined.

(** ** Further properties of the report *)

(** X3: [format_table] logs what the stream it consumes logs, and ends as
    that stream ends.  It prints the heading, one line per record in the
    order of the stream, and, only when the stream ends normally, the
    closing rule and the totals: the number of records and the float sum
    of their revenues taken in order from 0.0. *)
Theorem format_table_report (stream : gen FinancialRecord) :
  snd (format_table stream) = ending stream /\
  logs (fst (format_table stream)) = events stream /\
  prints (fst (format_table stream))
  = Header :: Rule
    :: map row_line (records stream)
    ++ match ending stream with
       | None => [Rule;
                  Totals (List.length (records stream))
                         (fold_left fadd (map revenue_value (records stream)) fzero)]
       | Some _ => []
       end.
Proof.
  unfold format_table.
  pose proof (table_loop_report stream 0 fzero) as H.
  destruct (table_loop 0 fzero stream) as [tr out]. simpl in *.
  destruct H as (Hout & Hlogs & Hprints). rewrite Hprints. auto.
Qed.

Lemma main_json fs args :
  endswith (file args) ".csv" = false ->
  endswith (file args) ".json" = true ->
  snd (main fs args)
  = ending (pipeline_dedupe
              (stream_json fs (file args) (rev_key args) (prof_key args))) /\
  logs (fst (main fs args))
  = events (pipeline_dedupe
              (stream_json fs (file args) (rev_key args) (prof_key args))) /\
  prints (fst (main fs args))
  = Generating (file args) :: Header :: Rule
    :: map row_line
         (records (pipeline_dedupe
                     (stream_json fs (file args) (rev_key args) (prof_key args))))
    ++ match ending (pipeline_dedupe
                       (stream_json fs (file args) (rev_key args) (prof_key args)))
       with
       | None =>
           [Rule;
            Totals
              (List.length
                 (records (pipeline_dedupe
                    (stream_json fs (file args) (rev_key args) (prof_key args)))))
              (fold_left fadd
                 (map revenue_value
                    (records (pipeline_dedupe
                       (stream_json fs (file args) (rev_key args) (prof_key args)))))
                 fzero)]
       | Some _ => []
       end.
Proof.
  intros Hcsv Hjson. unfold main. rewrite Hcsv, Hjson.
  pose proof (report_of_stream (file args)
                (stream_json fs (file args) (rev_key args) (prof_key args))) as H.
  destruct (format_table
              (pipeline_dedupe
                 (stream_json fs (file args) (rev_key args) (prof_key args))))
    as [tr out].
  destruct (H tr out eq_refl) as (-> & Hlogs & Hprints). auto.
Qed.

(** X4: a run of the enterprise script on a CSV file that is probed,
    opened and read to its end without failure ends with status 0.  It
    prints the heading, one line for each valid row after the first that
    equals no earlier valid row, in file order, then the rule and the
    totals: the number of those rows and the float sum of their revenues.
    A file without any valid row gives the heading and totals of zero. *)
Theorem csv_run_prints_unique_valid_rows fs args evs encoding r :
  endswith (file args) ".csv" = true ->
  detect_encoding fs (file args) = (evs, Ok encoding) ->
  open_csv fs (file args) encoding = CsvOpens r ->
  read_failure r = None ->
  snd (main fs args) = None /\
  exit_status (snd (main fs args)) = 0%Z /\
  prints (fst (main fs args))
  = Generating (file args) :: Header :: Rule
    :: map row_line
         (first_occurrences [] (present (map csv_row_record (tl (rows_read r)))))
    ++ [Rule;
        Totals
          (List.length
             (first_occurrences []
                (present (map csv_row_record (tl (rows_read r))))))
          (fold_left fadd
             (map revenue_value
                (first_occurrences []
                   (present (map csv_row_record (tl (rows_read r))))))
             fzero)].
Proof.
  intros Hcsv Hprobe Hopen Hfail.
  destruct (main_csv fs args Hcsv) as (Hout & _ & Hprints).
  assert (Hs : stream_csv fs (file args)
               = prepend evs (csv_loop (file args) 2 (tl (rows_read r)) None)).
  { unfold stream_csv. rewrite Hprobe, Hopen, Hfail. reflexivity. }
  assert (Hend : ending (pipeline_dedupe (stream_csv fs (file args))) = None).
  { unfold pipeline_dedupe.
    rewrite ending_dedupe_loop, Hs, ending_prepend, ending_csv_loop.
    reflexivity. }
  assert (Hrec : records (pipeline_dedupe (stream_csv fs (file args)))
                 = first_occurrences []
                     (present (map csv_row_record (tl (rows_read r))))).
  { unfold pipeline_dedupe.
    rewrite (dedupe_loop_first_occurrences _ [] [] 0) by reflexivity.
    rewrite Hs, records_prepend, records_csv_loop. reflexivity. }
  rewrite Hend, Hrec in *. rewrite Hout, Hprints. auto.
Qed.

Lemma csv_run_prints_unique_valid_rows_witness :
  exit_status
    (snd (main (csv_world [["revenue"; "profit"]; ["100"; "10"]; ["x"; "1"];
                           ["100.0"; "1e1"]])
               {| file := "data.csv"; rev_key := "revenue"; prof_key := "profit" |}))
  = 0%Z.
Proof.
  apply (csv_run_prints_unique_valid_rows
           (csv_world [["revenue"; "profit"]; ["100"; "10"]; ["x"; "1"];
                       ["100.0"; "1e1"]])
           {| file := "data.csv"; rev_key := "revenue"; prof_key := "profit" |}
           [] UTF8
           {| rows_read := [["revenue"; "profit"]; ["100"; "10"]; ["x"; "1"];
                            ["100.0"; "1e1"]];
              read_failure := None |});
    reflexivity.
Defined.

(** X5: a run of the enterprise script on a JSON file that decodes to a
    list whose numbers fit a float ends with status 0.  It prints the
    heading, one line for each valid item that equals no earlier valid
    item, in document order, then the rule and the totals. *)
Theorem json_run_prints_unique_valid_items fs args items :
  endswith (file args) ".csv" = false ->
  endswith (file args) ".json" = true ->
  load_json fs (file args) = Ok (VList items) ->
  forallb (item_in_range (rev_key args) (prof_key args)) items = true ->
  snd (main fs args) = None /\
  exit_status (snd (main fs args)) = 0%Z /\
  prints (fst (main fs args))
  = Generating (file args) :: Header :: Rule
    :: map row_line
         (first_occurrences []
            (present (map (json_item_record (rev_key args) (prof_key args)) items)))
    ++ [Rule;
        Totals
          (List.length
             (first_occurrences []
                (present (map (json_item_record (rev_key args) (prof_key args))
                              items))))
          (fold_left fadd
             (map revenue_value
                (first_occurrences []
                   (present (map (json_item_record (rev_key args) (prof_key args))
                                 items))))
             fzero)].
Proof.
  intros Hcsv Hjson Hload Hrange.
  destruct (main_json fs args Hcsv Hjson) as (Hout & _ & Hprints).
  set (s := stream_json fs (file args) (rev_key args) (prof_key args)) in *.
  assert (Hs : exists evs,
             s = prepend evs (json_loop (rev_key args) (prof_key args) items)).
  { unfold s, stream_json. rewrite Hload. eauto. }
  destruct Hs as [evs Hs].
  assert (Hend : ending (pipeline_dedupe s) = None).
  { unfold pipeline_dedupe.
    rewrite ending_dedupe_loop, Hs, ending_prepend.
    apply ending_json_loop. assumption. }
  assert (Hrec : records (pipeline_dedupe s)
                 = first_occurrences []
                     (present (map (json_item_record (rev_key args) (prof_key args))
                                   items))).
  { unfold pipeline_dedupe.
    rewrite (dedupe_loop_first_occurrences _ [] [] 0) by reflexivity.
    rewrite Hs, records_prepend. f_equal.
    apply records_json_loop. assumption. }
  rewrite Hend, Hrec in *. rewrite Hout, Hprints. auto.
Qed.

Lemma json_run_prints_unique_valid_items_witness :
  exit_status
    (snd (main (json_world
                  (VList [VDict [("revenue", VInt 100); ("profit", VInt 10)];
                          VDict [("revenue", VInt 200); ("profit", VStr "x")]]))
               {| file := "data.json"; rev_key := "revenue"; prof_key := "profit" |}))
  = 0%Z.
Proof.
  apply (json_run_prints_unique_valid_items
           (json_world
              (VList [VDict [("revenue", VInt 100); ("profit", VInt 10)];
                      VDict [("revenue", VInt 200); ("profit", VStr "x")]]))
           {| file := "data.json"; rev_key := "revenue"; prof_key := "profit" |}
           [VDict [("revenue", VInt 100); ("profit", VInt 10)];
            VDict [("revenue", VInt 200); ("profit", VStr "x")]]);
    reflexivity.
Defined.

(** X6: when the JSON file cannot be opened or decoded the enterprise
    script logs one error, which names the file for a malformed document
    and the exception otherwise, and exits with status 1; the heading is
    printed, no row and no totals. *)
Theorem json_load_failure_is_fatal fs args e :
  endswith (file args) ".csv" = false ->
  endswith (file args) ".json" = true ->
  load_json fs (file args) = Raise e ->
  snd (main fs args) = Some (SysExit 1) /\
  exit_status (snd (main fs args)) = 1%Z /\
  logs (fst (main fs args))
  = [Log ERROR match e with
               | JSONDecodeError => InvalidJsonFile (file args)
               | _ => UnexpectedJsonError e
               end] /\
  prints (fst (main fs args)) = [Generating (file args); Header; Rule].
Proof.
  intros Hcsv Hjson Hload.
  destruct (main_json fs args Hcsv Hjson) as (Hout & Hlogs & Hprints).
  assert (Hs : stream_json fs (file args) (rev_key args) (prof_key args)
               = Abort [Log ERROR match e with
                                  | JSONDecodeError => InvalidJsonFile (file args)
                                  | _ => UnexpectedJsonError e
                                  end] (SysExit 1)).
  { unfold stream_json. rewrite Hload. destruct e; reflexivity. }
  rewrite Hs in *. simpl in *. rewrite Hout. auto.
Qed.

Lemma json_load_failure_is_fatal_witness :
  exit_status
    (snd (main empty_world
               {| file := "data.json"; rev_key := "revenue"; prof_key := "profit" |}))
  = 1%Z.
Proof.
  apply (json_load_failure_is_fatal empty_world
           {| file := "data.json"; rev_key := "revenue"; prof_key := "profit" |}
           FileNotFoundError); reflexivity.
Defined.

(** ** Further properties of the CSV reader *)

Lemma Exn_eq_dec_probe (e : Exn) :
  e = UnicodeDecodeError \/ e <> UnicodeDecodeError.
Proof. destruct e; (left; reflexivity) || (right; discriminate). Qed.

(** X7: the CSV reader lets an exception escape uncaught exactly when the
    encoding probe fails with something other than a decoding error (a
    missing or unreadable file): the stream is then that exception alone,
    with nothing logged.  After a decoding error in the probe the reader
    logs the fallback first and reads the file as Latin-1; in every other
    case the stream ends normally or by the fatal exit. *)
Theorem stream_csv_uncaught_iff_probe_fails fs filepath :
  (forall e, probe fs filepath = Some e -> e <> UnicodeDecodeError ->
     stream_csv fs filepath = Abort [] (Exc e)) /\
  (probe fs filepath = Some UnicodeDecodeError ->
   stream_csv fs filepath
   = prepend [Log INFO (Utf8Failed filepath)]
       match open_csv fs filepath Latin1 with
       | CsvOpenFails e =>
           Abort [Log ERROR (FailedToReadCsv filepath e)] (SysExit 1)
       | CsvOpens r => csv_loop filepath 2 (tl (rows_read r)) (read_failure r)
       end) /\
  ((exists e, ending (stream_csv fs filepath) = Some (Exc e)) <->
   (exists e, probe fs filepath = Some e /\ e <> UnicodeDecodeError)) /\
  (probe fs filepath = None \/ probe fs filepath = Some UnicodeDecodeError ->
   ending (stream_csv fs filepath) = None \/
   ending (stream_csv fs filepath) = Some (SysExit 1)).
Proof.
  assert (Hcaught : forall encoding,
            ending match open_csv fs filepath encoding with
                   | CsvOpenFails e =>
                       Abort [Log ERROR (FailedToReadCsv filepath e)] (SysExit 1)
                   | CsvOpens r =>
                       csv_loop filepath 2 (tl (rows_read r)) (read_failure r)
                   end = None \/
            ending match open_csv fs filepath encoding with
                   | CsvOpenFails e =>
                       Abort [Log ERROR (FailedToReadCsv filepath e)] (SysExit 1)
                   | CsvOpens r =>
                       csv_loop filepath 2 (tl (rows_read r)) (read_failure r)
                   end = Some (SysExit 1)).
  { intros encoding. destruct (open_csv fs filepath encoding) as [e|r]; simpl.
    - auto.
    - rewrite ending_csv_loop. destruct (read_failure r); auto. }
  assert (Hok : probe fs filepath = None \/
                probe fs filepath = Some UnicodeDecodeError ->
                ending (stream_csv fs filepath) = None \/
                ending (stream_csv fs filepath) = Some (SysExit 1)).
  { unfold stream_csv, detect_encoding.
    intros [-> | ->]; rewrite ending_prepend; apply Hcaught. }
  assert (Hbad : forall e, probe fs filepath = Some e ->
                 e <> UnicodeDecodeError ->
                 stream_csv fs filepath = Abort [] (Exc e)).
  { intros e He Hne. unfold stream_csv, detect_encoding. rewrite He.
    destruct e; try reflexivity. congruence. }
  split; [exact Hbad|]. split; [|split; [|exact Hok]].
  - intros Hp. unfold stream_csv, detect_encoding. rewrite Hp. reflexivity.
  - split.
    + intros [e He]. destruct (probe fs filepath) as [e'|] eqn:Hp.
      * destruct (Exn_eq_dec_probe e') as [->|Hne].
        -- destruct (Hok (or_intror eq_refl)) as [H|H]; congruence.
        -- eauto.
      * destruct (Hok (or_introl eq_refl)) as [H|H]; congruence.
    + intros (e & Hp & Hne). exists e. rewrite (Hbad e Hp Hne). reflexivity.
Qed.

Lemma stream_csv_uncaught_iff_probe_fails_witness :
  stream_csv empty_world "data.csv" = Abort [] (Exc FileNotFoundError).
Proof.
  apply (proj1 (stream_csv_uncaught_iff_probe_fails empty_world "data.csv")
           FileNotFoundError); [reflexivity|discriminate].
Defined.

(** X8: when the probe cannot open the CSV file, the enterprise script
    prints the heading, logs nothing, and ends by the uncaught exception,
    so with status 1: the reader's own error entry is never written. *)
Theorem probe_failure_ends_run_unlogged fs args e :
  endswith (file args) ".csv" = true ->
  probe fs (file args) = Some e -> e <> UnicodeDecodeError ->
  main fs args
  = ([Print (Generating (file args)); Print Header; Print Rule],
     Some (Exc e)) /\
  exit_status (snd (main fs args)) = 1%Z /\
  logs (fst (main fs args)) = [].
Proof.
  intros Hcsv Hp Hne.
  assert (Hs : stream_csv fs (file args) = Abort [] (Exc e)).
  { unfold stream_csv, detect_encoding. rewrite Hp.
    destruct e; try reflexivity. congruence. }
  assert (Hm : main fs args
               = ([Print (Generating (file args)); Print Header; Print Rule],
                  Some (Exc e))).
  { unfold main. rewrite Hcsv, Hs. reflexivity. }
  rewrite Hm. auto.
Qed.

Lemma probe_failure_ends_run_unlogged_witness :
  exit_status
    (snd (main empty_world
               {| file := "data.csv"; rev_key := "revenue"; prof_key := "profit" |}))
  = 1%Z.
Proof.
  apply (probe_failure_ends_run_unlogged empty_world
           {| file := "data.csv"; rev_key := "revenue"; prof_key := "profit" |}
           FileNotFoundError); [reflexivity|reflexivity|discriminate].
Defined.

Lemma events_csv_loop_cons filepath line_num row rest failure :
  exists evs,
    events (csv_loop filepath line_num (row :: rest) failure)
    = evs ++ events (csv_loop filepath (S line_num) rest failure) /\
    ((List.length row < 2)%nat ->
     evs = [Log WARNING (InsufficientColumns line_num)]).
Proof.
  simpl. destruct row as [|c0 [|c1 cols]]; simpl.
  - eexists. rewrite events_prepend. split; reflexivity.
  - eexists. rewrite events_prepend. split; reflexivity.
  - rewrite validate_record_in_range by apply overflows_str.
    destruct (pair_record (VStr c0) (VStr c1)); simpl.
    + exists []. split; [reflexivity|lia].
    + eexists. rewrite events_prepend. split; [reflexivity|lia].
Qed.

Lemma short_row_warning_in_loop filepath row later failure earlier :
  (List.length row < 2)%nat ->
  forall line_num,
  In (Log WARNING (InsufficientColumns (List.length earlier + line_num)))
     (events (csv_loop filepath line_num (earlier ++ row :: later) failure)).
Proof.
  intros Hshort. induction earlier as [|row' earlier IH]; intros line_num.
  - destruct (events_csv_loop_cons filepath line_num row later failure)
      as (evs & Hev & Hrow).
    simpl app. rewrite Hev, (Hrow Hshort). left. reflexivity.
  - destruct (events_csv_loop_cons filepath line_num row'
                (earlier ++ row :: later) failure) as (evs & Hev & _).
    simpl app. rewrite Hev. apply in_or_app. right.
    replace (List.length (row' :: earlier) + line_num)%nat
      with (List.length earlier + S line_num)%nat by (simpl; lia).
    apply IH.
Qed.

(** X9: the warning for a CSV row with fewer than two columns carries the
    position of the row among the rows of the file, counted from 1 with
    the first row included: the short row that follows the first row and
    [n] other rows is reported as line [n + 2], whether or not the read
    fails later. *)
Theorem short_row_warning_names_its_line fs filepath evs encoding r
  header earlier row later :
  detect_encoding fs filepath = (evs, Ok encoding) ->
  open_csv fs filepath encoding = CsvOpens r ->
  rows_read r = header :: earlier ++ row :: later ->
  (List.length row < 2)%nat ->
  In (Log WARNING (InsufficientColumns (List.length earlier + 2)))
     (events (stream_csv fs filepath)).
Proof.
  intros Hprobe Hopen Hrows Hshort.
  unfold stream_csv. rewrite Hprobe, Hopen, Hrows. simpl tl.
  rewrite events_prepend. apply in_or_app. right.
  apply short_row_warning_in_loop. assumption.
Qed.

Lemma short_row_warning_names_its_line_witness :
  In (Log WARNING (InsufficientColumns 3))
     (events (stream_csv
                (csv_world [["revenue"; "profit"]; ["100"; "10"]; ["7"]])
                "data.csv")).
Proof.
  apply (short_row_warning_names_its_line
           (csv_world [["revenue"; "profit"]; ["100"; "10"]; ["7"]])
           "data.csv" [] UTF8
           {| rows_read := [["revenue"; "profit"]; ["100"; "10"]; ["7"]];
              read_failure := None |}
           ["revenue"; "profit"] [["100"; "10"]] ["7"] []);
    [reflexivity|reflexivity|reflexivity|simpl; lia].
Defined.

(** ** Further properties of the JSON reader *)

(** X10: a JSON document that is not a list, or is the empty list, is an
    empty input: the reader logs one warning and yields nothing, and the
    enterprise script prints the heading and totals of zero and ends with
    status 0. *)
Theorem json_without_list_is_empty fs args data :
  endswith (file args) ".csv" = false ->
  endswith (file args) ".json" = true ->
  load_json fs (file args) = Ok data ->
  (forall item items, data <> VList (item :: items)) ->
  stream_json fs (file args) (rev_key args) (prof_key args)
  = Done [Log WARNING NoListData] /\
  main fs args
  = ([Print (Generating (file args)); Print Header; Print Rule;
      Logged (Log WARNING NoListData);
      Print Rule; Print (Totals 0 fzero)], None).
Proof.
  intros Hcsv Hjson Hload Hshape.
  assert (Hs : stream_json fs (file args) (rev_key args) (prof_key args)
               = Done [Log WARNING NoListData]).
  { unfold stream_json. rewrite Hload.
    destruct data as [| | | | |[|item items]|]; try reflexivity.
    exfalso. eapply Hshape. reflexivity. }
  split; [exact Hs|].
  unfold main. rewrite Hcsv, Hjson, Hs. reflexivity.
Qed.

Lemma json_without_list_is_empty_witness :
  stream_json (json_world (VDict [("revenue", VInt 100); ("profit", VInt 10)]))
              "data.json" "revenue" "profit"
  = Done [Log WARNING NoListData].
Proof.
  apply (json_without_list_is_empty
           (json_world (VDict [("revenue", VInt 100); ("profit", VInt 10)]))
           {| file := "data.json"; rev_key := "revenue"; prof_key := "profit" |}
           (VDict [("revenue", VInt 100); ("profit", VInt 10)]));
    [reflexivity|reflexivity|reflexivity|discriminate].
Defined.

Lemma validate_record_events (r p : Val) :
  fst (validate_record r p) = [] \/
  fst (validate_record r p) = [Log WARNING (SkippingInvalidRow r p)].
Proof.
  unfold validate_record.
  destruct (to_float r) as [rev|e]; [destruct (to_float p) as [prof|e]|];
    simpl; auto; destruct (value_or_type_error e); simpl; auto.
Qed.

Lemma yield_validated_not_critical on_error r p next :
  Forall (fun entry => is_log CRITICAL entry = false) (events next) ->
  Forall (fun entry => is_log CRITICAL entry = false)
         (events (yield_validated on_error (validate_record r p) next)).
Proof.
  intros Hnext.
  destruct (validate_record_events r p) as [H|H];
    destruct (validate_record r p) as [evs [[rec|]|e]]; simpl in *; subst;
    try rewrite events_prepend; simpl; auto;
    repeat constructor; auto.
Qed.

Lemma json_loop_not_critical key_rev key_prof items :
  Forall (fun entry => is_log CRITICAL entry = false)
         (events (json_loop key_rev key_prof items)).
Proof.
  induction items as [|item rest IH]; simpl; [constructor|].
  destruct item as [| | | | |l|d]; try exact IH.
  - destruct l as [|x0 [|x1 l]]; try exact IH.
    apply yield_validated_not_critical. exact IH.
  - apply yield_validated_not_critical. exact IH.
Qed.

Lemma filter_none {A} (f : A -> bool) (l : list A) :
  Forall (fun x => f x = false) l -> filter f l = [].
Proof.
  induction 1 as [|x l Hx _ IH]; simpl; [reflexivity|].
  rewrite Hx. exact IH.
Qed.

(** X11: format drift does not stop the JSON reader.  The reader logs a
    critical entry, with the keys it found, exactly when the first item of
    the list is an object that lacks one of the two configured keys, and
    that is the only critical entry of the run; with or without it, the
    records yielded and the end of the stream are those of the item loop. *)
Theorem format_drift_is_logged_not_fatal fs filepath key_rev key_prof items :
  load_json fs filepath = Ok (VList items) ->
  filter (is_log CRITICAL) (events (stream_json fs filepath key_rev key_prof))
  = match items with
    | VDict d :: _ =>
        if dict_has d key_rev && dict_has d key_prof then []
        else [Log CRITICAL (FormatDrift key_rev key_prof (map fst d))]
    | _ => []
    end /\
  records (stream_json fs filepath key_rev key_prof)
  = records (json_loop key_rev key_prof items) /\
  ending (stream_json fs filepath key_rev key_prof)
  = ending (json_loop key_rev key_prof items).
Proof.
  intros Hload. unfold stream_json. rewrite Hload.
  rewrite events_prepend, records_prepend, ending_prepend.
  split; [|split; reflexivity].
  rewrite !filter_app.
  rewrite (filter_none _ _ (json_loop_not_critical key_rev key_prof items)).
  rewrite app_nil_r.
  destruct items as [|item rest]; [reflexivity|]. simpl.
  destruct item as [| | | | |l|d]; try reflexivity.
  destruct (dict_has d key_rev), (dict_has d key_prof); reflexivity.
Qed.

Lemma format_drift_is_logged_not_fatal_witness :
  records (stream_json
             (json_world
                (VList [VDict [("income", VInt 100); ("profit", VInt 10)];
                        VList [VInt 200; VInt 20]]))
             "data.json" "revenue" "profit")
  = records (json_loop "revenue" "profit"
               [VDict [("income", VInt 100); ("profit", VInt 10)];
                VList [VInt 200; VInt 20]]).
Proof.
  apply (format_drift_is_logged_not_fatal
           (json_world
              (VList [VDict [("income", VInt 100); ("profit", VInt 10)];
                      VList [VInt 200; VInt 20]]))
           "data.json" "revenue" "profit"
           [VDict [("income", VInt 100); ("profit", VInt 10)];
            VList [VInt 200; VInt 20]]).
  reflexivity.
Defined.

Lemma dict_get_missing (d : list (string * Val)) (key : string) :
  dict_has d key = false -> dict_get d key = VNone.
Proof.
  unfold dict_has. induction d as [|[k v] d IH]; simpl; [reflexivity|].
  destruct (k =? key); simpl; [discriminate|exact IH].
Qed.

Lemma json_loop_missing_revenue key_rev key_prof ds :
  Forall (fun d => dict_has d key_rev = false) ds ->
  json_loop key_rev key_prof (map VDict ds)
  = Done (map (fun d => Log WARNING
                          (SkippingInvalidRow VNone (dict_get d key_prof))) ds).
Proof.
  induction 1 as [|d ds Hd _ IH]; simpl; [reflexivity|].
  rewrite IH, (dict_get_missing d key_rev Hd). reflexivity.
Qed.

(** X12: when no object of a JSON list has the configured revenue key
    (the file is keyed otherwise, or the key option is wrong), the reader
    yields no record and still ends normally: it logs the critical drift
    entry with the keys of the first object, then one warning per object,
    each showing the revenue as missing. *)
Theorem missing_revenue_key_rejects_every_item
  fs filepath key_rev key_prof d ds :
  load_json fs filepath = Ok (VList (map VDict (d :: ds))) ->
  Forall (fun d' => dict_has d' key_rev = false) (d :: ds) ->
  stream_json fs filepath key_rev key_prof
  = Done (Log CRITICAL (FormatDrift key_rev key_prof (map fst d))
          :: map (fun d' => Log WARNING
                              (SkippingInvalidRow VNone (dict_get d' key_prof)))
                 (d :: ds)).
Proof.
  intros Hload Hall. unfold stream_json. rewrite Hload.
  rewrite (json_loop_missing_revenue key_rev key_prof (d :: ds) Hall).
  inversion Hall as [|? ? Hd _]; subst. simpl. rewrite Hd. reflexivity.
Qed.

Lemma missing_revenue_key_rejects_every_item_witness :
  records (stream_json
             (json_world
                (VList (map VDict [[("revenue", VInt 100); ("profit", VInt 10)]])))
             "data.json" "income" "net")
  = [].
Proof.
  rewrite (missing_revenue_key_rejects_every_item
             (json_world
                (VList (map VDict [[("revenue", VInt 100); ("profit", VInt 10)]])))
             "data.json" "income" "net"
             [("revenue", VInt 100); ("profit", VInt 10)] []).
  - reflexivity.
  - reflexivity.
  - repeat constructor.
Defined.

Lemma validate_record_overflow (r p : Val) :
  overflows r = true \/
  ((exists rev, to_float r = Ok rev) /\ overflows p = true) ->
  validate_record r p = ([], Raise OverflowError).
Proof.
  unfold validate_record, overflows.
  intros [H|[[rev Hr] H]].
  - destruct (to_float r) as [|[]]; try discriminate. reflexivity.
  - rewrite Hr. destruct (to_float p) as [|[]]; try discriminate. reflexivity.
Qed.

Lemma json_loop_cons_in_range key_rev key_prof item rest :
  item_in_range key_rev key_prof item = true ->
  records (json_loop key_rev key_prof (item :: rest))
  = present [json_item_record key_rev key_prof item]
    ++ records (json_loop key_rev key_prof rest) /\
  ending (json_loop key_rev key_prof (item :: rest))
  = ending (json_loop key_rev key_prof rest) /\
  exists evs,
    events (json_loop key_rev key_prof (item :: rest))
    = evs ++ events (json_loop key_rev key_prof rest).
Proof.
  unfold item_in_range, json_item_record. intros Hitem.
  assert (Hpair : forall r p next,
    negb (overflows r) && negb (overflows p) = true ->
    records (yield_validated UnexpectedJsonError (validate_record r p) next)
    = present [pair_record r p] ++ records next /\
    ending (yield_validated UnexpectedJsonError (validate_record r p) next)
    = ending next /\
    exists evs,
      events (yield_validated UnexpectedJsonError (validate_record r p) next)
      = evs ++ events next).
  { intros r p next Hrange.
    apply andb_true_iff in Hrange as [H0 H1].
    apply negb_true_iff in H0, H1.
    rewrite validate_record_in_range by assumption.
    destruct (pair_record r p); simpl.
    - split; [reflexivity|]. split; [reflexivity|]. exists []. reflexivity.
    - rewrite records_prepend, ending_prepend, events_prepend. eauto. }
  destruct item as [| | | | |l|d]; simpl in *;
    try (split; [reflexivity|]; split; [reflexivity|]; exists []; reflexivity).
  - destruct l as [|x0 [|x1 l]]; simpl in *;
      try (split; [reflexivity|]; split; [reflexivity|]; exists []; reflexivity).
    apply Hpair. assumption.
  - apply Hpair. assumption.
Qed.

(** X13: an int beyond the float range that [float] is called on is fatal
    to the enterprise reader: the revenue value of a JSON item, or its
    profit value when the revenue converts.  If the items before that item
    fit, the reader yields the records of the valid ones among them, then
    logs an error for the [OverflowError] and exits with status 1; no later
    item is read. *)
Theorem json_int_out_of_range_ends_stream
  key_rev key_prof earlier item later r p :
  forallb (item_in_range key_rev key_prof) earlier = true ->
  json_item_pair key_rev key_prof item = Some (r, p) ->
  overflows r = true \/
  ((exists rev, to_float r = Ok rev) /\ overflows p = true) ->
  records (json_loop key_rev key_prof (earlier ++ item :: later))
  = present (map (json_item_record key_rev key_prof) earlier) /\
  ending (json_loop key_rev key_prof (earlier ++ item :: later))
  = Some (SysExit 1) /\
  exists evs,
    events (json_loop key_rev key_prof (earlier ++ item :: later))
    = evs ++ [Log ERROR (UnexpectedJsonError OverflowError)].
Proof.
  intros Hrange Hpair Hover.
  pose proof (validate_record_overflow r p Hover) as Hv.
  induction earlier as [|item0 earlier IH].
  - simpl app. simpl.
    destruct item as [| | | | |l|d]; try discriminate Hpair.
    + destruct l as [|x0 [|x1 l]]; try discriminate Hpair.
      simpl in Hpair. injection Hpair as -> ->. rewrite Hv. simpl.
      split; [reflexivity|]. split; [reflexivity|]. exists []. reflexivity.
    + simpl in Hpair. injection Hpair as <- <-. rewrite Hv. simpl.
      split; [reflexivity|]. split; [reflexivity|]. exists []. reflexivity.
  - simpl in Hrange. apply andb_true_iff in Hrange as [H0 Hrest].
    destruct (IH Hrest) as (Hrec & Hend & evs & Hev).
    destruct (json_loop_cons_in_range key_rev key_prof item0
                (earlier ++ item :: later) H0) as (Hrec0 & Hend0 & evs0 & Hev0).
    simpl app. rewrite Hrec0, Hend0, Hev0, Hrec, Hend, Hev.
    split; [|split; [reflexivity|]].
    + simpl. destruct (json_item_record key_rev key_prof item0); reflexivity.
    + exists (evs0 ++ evs). rewrite app_assoc. reflexivity.
Qed.

Lemma json_int_out_of_range_ends_stream_witness :
  ending (json_loop "revenue" "profit"
            ([VList [VInt 100; VInt 10]]
               ++ VList [VInt (10 ^ 400); VInt 1] :: [VList [VInt 200; VInt 20]]))
  = Some (SysExit 1).
Proof.
  apply (json_int_out_of_range_ends_stream "revenue" "profit"
           [VList [VInt 100; VInt 10]] (VList [VInt (10 ^ 400); VInt 1])
           [VList [VInt 200; VInt 20]] (VInt (10 ^ 400)) (VInt 1));
    [reflexivity|reflexivity|left; vm_compute; reflexivity].
Defined.

(** ** The plain and the tabulate script *)

Section LoadedData.
Import Script.
Variable validate : Val -> Val -> list Event * Result (option Pair).
Variable P : Pair -> Prop.
Hypothesis validate_P :
  forall r p evs t, validate r p = (evs, Ok (Some t)) -> P t.

Lemma append_validated_data validated next evs data :
  append_validated validated next = (evs, Ok data) ->
  exists evs1 v evs2 rest,
    validated = (evs1, Ok v) /\ next = (evs2, Ok rest) /\
    data = match v with Some t => t :: rest | None => rest end.
Proof.
  destruct validated as [evs1 [v|e]], next as [evs2 [rest|e']]; simpl;
    try discriminate.
  intros [= <- <-]. eauto 8.
Qed.

Lemma csv_loop_data rows failure : forall evs data,
  csv_loop validate rows failure = (evs, Ok data) -> Forall P data.
Proof.
  induction rows as [|row rows IH]; simpl; intros evs data.
  - destruct failure; [discriminate|]. intros [= <- <-]. constructor.
  - destruct row as [|c0 [|c1 cols]]; try apply IH.
    intros H. apply append_validated_data in H
      as (evs1 & v & evs2 & rest & Hv & Hnext & ->).
    apply IH in Hnext. destruct v as [t|]; [|assumption].
    constructor; [|assumption]. eapply validate_P. exact Hv.
Qed.

Lemma json_loop_data items : forall evs data,
  json_loop validate items = (evs, Ok data) -> Forall P data.
Proof.
  induction items as [|item items IH]; simpl; intros evs data.
  - intros [= <- <-]. constructor.
  - assert (Hstep : forall r p,
              append_validated (validate r p) (json_loop validate items)
              = (evs, Ok data) -> Forall P data).
    { intros r p H. apply append_validated_data in H
        as (evs1 & v & evs2 & rest & Hv & Hnext & ->).
      apply IH in Hnext. destruct v as [t|]; [|assumption].
      constructor; [|assumption]. eapply validate_P. exact Hv. }
    destruct item as [| | | | |l|d]; try apply IH.
    + destruct l as [|x0 [|x1 l]]; try apply IH. apply Hstep.
    + apply Hstep.
Qed.

Lemma load_data_from_csv_data fs filepath :
  Forall P (snd (load_data_from_csv validate fs filepath)).
Proof.
  unfold load_data_from_csv.
  destruct (open_csv fs filepath UTF8) as [e|r]; simpl; [constructor|].
  destruct (csv_loop validate (tl (rows_read r)) (read_failure r))
    as [evs [data|e]] eqn:H; simpl; [|constructor].
  eapply csv_loop_data. exact H.
Qed.

Lemma load_data_from_json_data fs filepath :
  Forall P (snd (load_data_from_json validate fs filepath)).
Proof.
  unfold load_data_from_json.
  destruct (load_json fs filepath) as [json_data|e]; simpl; [|constructor].
  destruct (json_loop validate match json_data with VList l => l | _ => [] end)
    as [evs [data|e]] eqn:H; simpl; [|constructor].
  eapply json_loop_data. exact H.
Qed.

(** What [main] goes on with is the built-in dataset or data that went
    through the validator. *)
Lemma load_data fs file evs data :
  load validate fs file = (evs, Some data) ->
  data = load_data_from_hardcoded \/ Forall P data.
Proof.
  unfold load. destruct file as [path|]; [|intros [= <- <-]; auto].
  destruct path as [|c path]; [intros [= <- <-]; auto|].
  destruct (endswith (String c path) ".csv").
  - pose proof (load_data_from_csv_data fs (String c path)) as H.
    destruct (load_data_from_csv validate fs (String c path)) as [evs' data'].
    intros [= <- <-]. auto.
  - destruct (endswith (String c path) ".json"); [|discriminate].
    pose proof (load_data_from_json_data fs (String c path)) as H.
    destruct (load_data_from_json validate fs (String c path)) as [evs' data'].
    intros [= <- <-]. auto.
Qed.

End LoadedData.

Lemma plain_validate_nonzero r p evs t :
  Plain.validate_financial_data r p = (evs, Ok (Some t)) ->
  nonzero_float_pair t.
Proof.
  unfold Plain.validate_financial_data.
  destruct (to_float r) as [rev|e]; [destruct (to_float p) as [prof|e]|];
    try (destruct (value_or_type_error e); discriminate).
  destruct (feqb (value rev) fzero) eqn:Hz; [discriminate|].
  intros [= <- <-]. exists (value rev), (value prof). auto.
Qed.

Lemma tabulate_validate_floats r p evs t :
  Tabulate.validate_financial_data r p = (evs, Ok (Some t)) -> float_pair t.
Proof.
  unfold Tabulate.validate_financial_data.
  destruct (to_float r) as [rev|e]; [destruct (to_float p) as [prof|e]|];
    try (destruct (value_or_type_error e); discriminate).
  intros [= <- <-]. exists (value rev), (value prof). auto.
Qed.

Lemma plain_print_rows_nonzero data :
  Forall nonzero_float_pair data ->
  snd (Plain.print_rows data) = None /\
  forall revenue profit,
    ~ In (Script.Out (Script.Row revenue profit None))
         (fst (Plain.print_rows data)).
Proof.
  induction 1 as [|t data (rev & prof & -> & Hz) _ [IHout IHrows]]; simpl.
  - split; [reflexivity|]. intros revenue profit [].
  - rewrite Hz. destruct (Plain.print_rows data) as [tr out]. simpl in *.
    split; [assumption|].
    intros revenue profit [H|H]; [discriminate|]. eapply IHrows. exact H.
Qed.

Section LoaderEvents.
Import Script.
Variable validate : Val -> Val -> list Event * Result (option Pair).
Hypothesis validate_stderr : forall r p, Forall on_stderr (fst (validate r p)).

Lemma append_validated_stderr r p next :
  Forall on_stderr (fst next) ->
  Forall on_stderr (fst (append_validated (validate r p) next)).
Proof.
  intros Hnext. pose proof (validate_stderr r p) as Hv.
  destruct (validate r p) as [evs1 [v|e]], next as [evs2 [rest|e']];
    simpl in *; try apply Forall_app; auto.
Qed.

Lemma csv_loop_stderr rows failure :
  Forall on_stderr (fst (csv_loop validate rows failure)).
Proof.
  induction rows as [|row rows IH]; simpl.
  - destruct failure; constructor.
  - destruct row as [|c0 [|c1 cols]]; try exact IH.
    apply append_validated_stderr. exact IH.
Qed.

Lemma json_loop_stderr items :
  Forall on_stderr (fst (json_loop validate items)).
Proof.
  induction items as [|item items IH]; simpl; [constructor|].
  destruct item as [| | | | |l|d]; try exact IH.
  - destruct l as [|x0 [|x1 l]]; try exact IH.
    apply append_validated_stderr. exact IH.
  - apply append_validated_stderr. exact IH.
Qed.

Lemma load_data_from_csv_stderr fs filepath :
  Forall on_stderr (fst (load_data_from_csv validate fs filepath)).
Proof.
  unfold load_data_from_csv.
  destruct (open_csv fs filepath UTF8) as [e|r]; simpl.
  - repeat constructor. eexists. reflexivity.
  - pose proof (csv_loop_stderr (tl (rows_read r)) (read_failure r)) as H.
    destruct (csv_loop validate (tl (rows_read r)) (read_failure r))
      as [evs [data|e]]; simpl in *; [assumption|].
    apply Forall_app. split; [assumption|].
    repeat constructor. eexists. reflexivity.
Qed.

Lemma load_data_from_json_stderr fs filepath :
  Forall on_stderr (fst (load_data_from_json validate fs filepath)).
Proof.
  unfold load_data_from_json.
  destruct (load_json fs filepath) as [json_data|e]; simpl.
  - pose proof (json_loop_stderr
                  match json_data with VList l => l | _ => [] end) as H.
    destruct (json_loop validate
                match json_data with VList l => l | _ => [] end)
      as [evs [data|e]]; simpl in *; [assumption|].
    apply Forall_app. split; [assumption|].
    repeat constructor. eexists. reflexivity.
  - repeat constructor. eexists. reflexivity.
Qed.

Lemma load_stderr fs file evs data :
  load validate fs file = (evs, Some data) -> Forall on_stderr evs.
Proof.
  unfold load. destruct file as [path|]; [|intros [= <- <-]; constructor].
  destruct path as [|c path]; [intros [= <- <-]; constructor|].
  destruct (endswith (String c path) ".csv").
  - pose proof (load_data_from_csv_stderr fs (String c path)) as H.
    destruct (load_data_from_csv validate fs (String c path)) as [evs' data'].
    intros [= <- <-]. assumption.
  - destruct (endswith (String c path) ".json"); [|discriminate].
    pose proof (load_data_from_json_stderr fs (String c path)) as H.
    destruct (load_data_from_json validate fs (String c path)) as [evs' data'].
    intros [= <- <-]. assumption.
Qed.

End LoaderEvents.

Lemma plain_validate_stderr r p :
  Forall on_stderr (fst (Plain.validate_financial_data r p)).
Proof.
  unfold Plain.validate_financial_data.
  destruct (to_float r) as [rev|e]; [destruct (to_float p) as [prof|e]|];
    try (destruct (value_or_type_error e); simpl;
         repeat constructor; eexists; reflexivity).
  destruct (feqb (value rev) fzero); simpl; repeat constructor.
  eexists. reflexivity.
Qed.

Lemma tabulate_validate_stderr r p :
  Forall on_stderr (fst (Tabulate.validate_financial_data r p)).
Proof.
  unfold Tabulate.validate_financial_data.
  destruct (to_float r) as [rev|e]; [destruct (to_float p) as [prof|e]|];
    try (destruct (value_or_type_error e); simpl;
         repeat constructor; eexists; reflexivity).
  constructor.
Qed.

Lemma stderr_not_out evs l :
  Forall on_stderr evs -> ~ In (Script.Out l) evs.
Proof.
  intros Hall Hin. rewrite Forall_forall in Hall.
  destruct (Hall _ Hin) as [l' H]. discriminate.
Qed.

Lemma plain_print_rows_loaded data :
  data = Script.load_data_from_hardcoded \/ Forall nonzero_float_pair data ->
  snd (Plain.print_rows data) = None /\
  forall revenue profit,
    ~ In (Script.Out (Script.Row revenue profit None))
         (fst (Plain.print_rows data)).
Proof.
  intros [->|H]; [|apply plain_print_rows_nonzero; assumption].
  split; [reflexivity|].
  intros revenue profit H. vm_compute in H.
  repeat destruct H as [H|H]; try discriminate H. exact H.
Qed.

(** X14: every tuple the plain script loads from a CSV or a JSON file is
    a pair of floats whose revenue is not zero.  So the plain script never
    prints a row without a percentage, whatever its input: the branch of
    [format_and_print_table] for a division by zero is never taken. *)
Theorem plain_loads_nonzero_revenue :
  (forall fs filepath,
     Forall nonzero_float_pair (snd (Plain.load_data_from_csv fs filepath)) /\
     Forall nonzero_float_pair (snd (Plain.load_data_from_json fs filepath))) /\
  (forall fs file revenue profit,
     ~ In (Script.Out (Script.Row revenue profit None))
          (fst (Plain.main fs file))).
Proof.
  split.
  - intros fs filepath. split.
    + apply load_data_from_csv_data. exact plain_validate_nonzero.
    + apply load_data_from_json_data. exact plain_validate_nonzero.
  - intros fs file revenue profit. unfold Plain.main.
    destruct (Script.load Plain.validate_financial_data fs file)
      as [evs [data|]] eqn:Hload.
    + pose proof (load_stderr _ plain_validate_stderr _ _ _ _ Hload) as Hevs.
      pose proof (load_data _ _ plain_validate_nonzero _ _ _ _ Hload) as Hdata.
      destruct (plain_print_rows_loaded data Hdata) as [_ Hrows].
      unfold Plain.format_and_print_table.
      destruct data as [|t data].
      * simpl. intros H. apply in_app_or in H as [H|[H|[]]];
          [eapply stderr_not_out; eauto | discriminate].
      * destruct (Plain.print_rows (t :: data)) as [tr out]. simpl in *.
        intros H. apply in_app_or in H as [H|[H|[H|H]]];
          [eapply stderr_not_out; eauto | discriminate | discriminate |].
        eapply Hrows. exact H.
    + simpl. intros H. revert Hload. unfold Script.load.
      destruct file as [[|c path]|]; try discriminate.
      destruct (endswith (String c path) ".csv");
        [destruct (Script.load_data_from_csv _ _ _); discriminate|].
      destruct (endswith (String c path) ".json");
        [destruct (Script.load_data_from_json _ _ _); discriminate|].
      intros [= <-]. destruct H as [H|[]]. discriminate.
Qed.

(** X15: once [parse_args] has returned, and as long as printing
    succeeds, [main] of the plain and of the tabulate script never ends by
    an exception: whatever file argument was parsed and whatever the file
    holds, the rest of [main] returns, which ends the process with
    status 0. *)
Theorem plain_and_tabulate_always_return :
  (forall fs file,
     snd (Plain.main fs file) = None /\
     Script.exit_status (snd (Plain.main fs file)) = 0%Z) /\
  (forall fs file format,
     snd (Tabulate.main fs file format) = None /\
     Script.exit_status (snd (Tabulate.main fs file format)) = 0%Z).
Proof.
  assert (Hplain : forall fs file, snd (Plain.main fs file) = None).
  { intros fs file. unfold Plain.main.
    destruct (Script.load Plain.validate_financial_data fs file)
      as [evs [data|]] eqn:Hload; [|reflexivity].
    pose proof (load_data _ _ plain_validate_nonzero _ _ _ _ Hload) as Hdata.
    destruct (plain_print_rows_loaded data Hdata) as [Hout _].
    unfold Plain.format_and_print_table.
    destruct data as [|t data]; [reflexivity|].
    destruct (Plain.print_rows (t :: data)) as [tr out]. exact Hout. }
  assert (Hprocess : forall data,
            data = Script.load_data_from_hardcoded \/ Forall float_pair data ->
            exists rows, Tabulate.process data = Ok rows).
  { intros data [->|H]; [eexists; vm_compute; reflexivity|].
    induction H as [|t data (rev & prof & ->) _ [rows IH]]; simpl.
    - eauto.
    - rewrite IH. destruct (feqb rev fzero) eqn:Hz.
      + eauto.
      + unfold Script.truediv. simpl. rewrite ?Hz. eauto. }
  assert (Htab : forall fs file format,
            snd (Tabulate.main fs file format) = None).
  { intros fs file format. unfold Tabulate.main.
    destruct (Script.load Tabulate.validate_financial_data fs file)
      as [evs [data|]] eqn:Hload; [|reflexivity].
    pose proof (load_data _ _ tabulate_validate_floats _ _ _ _ Hload) as Hdata.
    destruct (Hprocess data Hdata) as [rows ->].
    destruct rows; reflexivity. }
  split.
  - intros fs file. rewrite Hplain. auto.
  - intros fs file format. rewrite Htab. auto.
Qed.

Lemma snd_append_validated (validated : list Script.Event * Result (option Script.Pair))
  (next : list Script.Event * Result (list Script.Pair)) :
  snd (Script.append_validated validated next)
  = match snd validated with
    | Ok v =>
        match snd next with
        | Ok data => Ok match v with Some t => t :: data | None => data end
        | Raise e => Raise e
        end
    | Raise e => Raise e
    end.
Proof.
  destruct validated as [evs1 [v|e]], next as [evs2 [rest|e']]; reflexivity.
Qed.

(** The plain validator answers as the tabulate one, but for a zero
    revenue. *)
Lemma plain_validate_as_tabulate r p :
  snd (Plain.validate_financial_data r p)
  = match snd (Tabulate.validate_financial_data r p) with
    | Ok (Some t) => Ok (if has_revenue t then Some t else None)
    | Ok None => Ok None
    | Raise e => Raise e
    end.
Proof.
  unfold Plain.validate_financial_data, Tabulate.validate_financial_data.
  destruct (to_float r) as [rev|e]; [destruct (to_float p) as [prof|e]|];
    try (destruct (value_or_type_error e); reflexivity).
  unfold has_revenue. simpl. destruct (feqb (value rev) fzero); reflexivity.
Qed.

Lemma plain_step_as_tabulate r p nextP nextT :
  snd nextP = match snd nextT with
              | Ok data => Ok (filter has_revenue data)
              | Raise e => Raise e
              end ->
  snd (Script.append_validated (Plain.validate_financial_data r p) nextP)
  = match snd (Script.append_validated
                 (Tabulate.validate_financial_data r p) nextT) with
    | Ok data => Ok (filter has_revenue data)
    | Raise e => Raise e
    end.
Proof.
  intros Hnext. rewrite !snd_append_validated, plain_validate_as_tabulate, Hnext.
  destruct (snd (Tabulate.validate_financial_data r p)) as [[t|]|e];
    destruct (snd nextT) as [data|e']; simpl; try reflexivity.
  destruct (has_revenue t); reflexivity.
Qed.

Lemma plain_csv_loop_as_tabulate rows failure :
  snd (Script.csv_loop Plain.validate_financial_data rows failure)
  = match snd (Script.csv_loop Tabulate.validate_financial_data rows failure) with
    | Ok data => Ok (filter has_revenue data)
    | Raise e => Raise e
    end.
Proof.
  induction rows as [|row rows IH]; simpl.
  - destruct failure; reflexivity.
  - destruct row as [|c0 [|c1 cols]]; try exact IH.
    apply plain_step_as_tabulate. exact IH.
Qed.

Lemma plain_json_loop_as_tabulate items :
  snd (Script.json_loop Plain.validate_financial_data items)
  = match snd (Script.json_loop Tabulate.validate_financial_data items) with
    | Ok data => Ok (filter has_revenue data)
    | Raise e => Raise e
    end.
Proof.
  induction items as [|item items IH]; simpl; [reflexivity|].
  destruct item as [| | | | |l|d]; try exact IH.
  - destruct l as [|x0 [|x1 l]]; try exact IH.
    apply plain_step_as_tabulate. exact IH.
  - apply plain_step_as_tabulate. exact IH.
Qed.

(** X16: the plain and the tabulate script differ, in what they load, by
    the rows with a zero revenue only: from any CSV or JSON file the plain
    loader returns the tuples the tabulate loader returns, in the same
    order, less those whose revenue is zero; both return nothing when the
    read fails. *)
Theorem plain_loads_tabulate_data_less_zero_revenue fs filepath :
  snd (Plain.load_data_from_csv fs filepath)
  = filter has_revenue (snd (Tabulate.load_data_from_csv fs filepath)) /\
  snd (Plain.load_data_from_json fs filepath)
  = filter has_revenue (snd (Tabulate.load_data_from_json fs filepath)).
Proof.
  split.
  - unfold Plain.load_data_from_csv, Tabulate.load_data_from_csv,
      Script.load_data_from_csv.
    destruct (open_csv fs filepath UTF8) as [e|r]; [reflexivity|].
    pose proof (plain_csv_loop_as_tabulate (tl (rows_read r)) (read_failure r))
      as H.
    destruct (Script.csv_loop Plain.validate_financial_data _ _) as [evsP resP].
    destruct (Script.csv_loop Tabulate.validate_financial_data _ _)
      as [evsT [dataT|e]]; simpl in H; subst resP; reflexivity.
  - unfold Plain.load_data_from_json, Tabulate.load_data_from_json,
      Script.load_data_from_json.
    destruct (load_json fs filepath) as [json_data|e]; [|reflexivity].
    pose proof (plain_json_loop_as_tabulate
                  match json_data with VList l => l | _ => [] end) as H.
    destruct (Script.json_loop Plain.validate_financial_data _) as [evsP resP].
    destruct (Script.json_loop Tabulate.validate_financial_data _)
      as [evsT [dataT|e]]; simpl in H; subst resP; reflexivity.
Qed.

(** X17: the tabulate script builds one table row per data tuple, in
    order, with the tuple's revenue and profit; the third cell is "N/A"
    exactly when the revenue equals zero, and the quotient of profit by
    revenue otherwise. *)
Theorem tabulate_rows_follow_data (data : list Script.Pair) :
  forall rows,
  Tabulate.process data = Ok rows ->
  map (fun row => fst row) rows = data /\
  Forall (fun row =>
            match snd row with
            | None => Script.num_is_zero (fst (fst row)) = true
            | Some percent =>
                Script.num_is_zero (fst (fst row)) = false /\
                Script.truediv (snd (fst row)) (fst (fst row)) = Ok percent
            end) rows.
Proof.
  induction data as [|[revenue profit] data IH]; simpl; intros rows.
  - intros [= <-]. split; constructor.
  - destruct (Script.num_is_zero revenue) eqn:Hz.
    + destruct (Tabulate.process data) as [rest|e]; [|discriminate].
      intros [= <-]. destruct (IH rest eq_refl) as [Hmap Hall].
      simpl. rewrite Hmap. split; [reflexivity|].
      constructor; [exact Hz|exact Hall].
    + destruct (Script.truediv profit revenue) as [percent|e] eqn:Hdiv;
        [|discriminate].
      destruct (Tabulate.process data) as [rest|e]; [|discriminate].
      intros [= <-]. destruct (IH rest eq_refl) as [Hmap Hall].
      simpl. rewrite Hmap. split; [reflexivity|].
      constructor; [simpl; auto|exact Hall].
Qed.

Lemma tabulate_rows_follow_data_witness :
  map (fun row => fst row)
      [(Script.NFloat fzero, Script.NFloat (round_Z 5), @None float)]
  = [(Script.NFloat fzero, Script.NFloat (round_Z 5))].
Proof.
  apply (tabulate_rows_follow_data
           [(Script.NFloat fzero, Script.NFloat (round_Z 5))]
           [(Script.NFloat fzero, Script.NFloat (round_Z 5), None)]).
  reflexivity.
Defined.

Lemma tabulate_validate_str (a b : string) :
  snd (Tabulate.validate_financial_data (VStr a) (VStr b))
  = Ok (option_map pair_of_record (pair_record (VStr a) (VStr b))).
Proof.
  unfold Tabulate.validate_financial_data, pair_record. simpl.
  destruct (float_of_str a) as [rev|e] eqn:Ea; simpl.
  - destruct (float_of_str b) as [prof|e] eqn:Eb; simpl; [reflexivity|].
    apply float_of_str_raises in Eb. subst. reflexivity.
  - apply float_of_str_raises in Ea. subst. reflexivity.
Qed.

Lemma tabulate_csv_loop_records rows :
  snd (Script.csv_loop Tabulate.validate_financial_data rows None)
  = Ok (map pair_of_record (present (map csv_row_record rows))).
Proof.
  induction rows as [|row rows IH]; [reflexivity|].
  destruct row as [|c0 [|c1 cols]]; try exact IH.
  cbn [Script.csv_loop List.length Nat.leb nth].
  rewrite snd_append_validated, tabulate_validate_str, IH.
  cbn [map present csv_row_record].
  destruct (pair_record (VStr c0) (VStr c1)); reflexivity.
Qed.

(** X18: on a CSV file that is valid UTF-8 and is read to its end, the
    tabulate loader returns exactly the revenue and profit of the records
    the enterprise reader yields, in the same order. *)
Theorem tabulate_loads_what_enterprise_reads fs filepath r :
  probe fs filepath = None ->
  open_csv fs filepath UTF8 = CsvOpens r ->
  read_failure r = None ->
  snd (Tabulate.load_data_from_csv fs filepath)
  = map pair_of_record (records (stream_csv fs filepath)).
Proof.
  intros Hprobe Hopen Hfail.
  unfold stream_csv, detect_encoding. rewrite Hprobe, Hopen, Hfail.
  rewrite records_prepend, records_csv_loop.
  unfold Tabulate.load_data_from_csv, Script.load_data_from_csv.
  rewrite Hopen, Hfail.
  pose proof (tabulate_csv_loop_records (tl (rows_read r))) as H.
  destruct (Script.csv_loop Tabulate.validate_financial_data _ _)
    as [evs res]. simpl in H. subst res. reflexivity.
Qed.

Lemma tabulate_loads_what_enterprise_reads_witness :
  snd (Tabulate.load_data_from_csv
         (csv_world [["revenue"; "profit"]; ["100"; "10"]; ["x"; "1"]])
         "data.csv")
  = map pair_of_record
        (records (stream_csv
                    (csv_world [["revenue"; "profit"]; ["100"; "10"]; ["x"; "1"]])
                    "data.csv")).
Proof.
  apply (tabulate_loads_what_enterprise_reads
           (csv_world [["revenue"; "profit"]; ["100"; "10"]; ["x"; "1"]])
           "data.csv"
           {| rows_read := [["revenue"; "profit"]; ["100"; "10"]; ["x"; "1"]];
              read_failure := None |});
    reflexivity.
Defined.

Section LoaderOverflow.
Import Script.
Variable validate : Val -> Val -> list Event * Result (option Pair).
Hypothesis validate_raises :
  forall r p e, snd (validate r p) = Raise e -> e = OverflowError.

Lemma json_loop_overflow earlier item later r p :
  json_item_pair "revenue" "profit" item = Some (r, p) ->
  snd (validate r p) = Raise OverflowError ->
  snd (json_loop validate (earlier ++ item :: later)) = Raise OverflowError.
Proof.
  intros Hpair Hv.
  assert (Hstep : forall r0 p0 next,
            snd next = Raise OverflowError ->
            snd (append_validated (validate r0 p0) next) = Raise OverflowError).
  { intros r0 p0 next Hnext. rewrite snd_append_validated, Hnext.
    destruct (snd (validate r0 p0)) as [v|e] eqn:H0; [reflexivity|].
    rewrite (validate_raises r0 p0 e H0). reflexivity. }
  induction earlier as [|item0 earlier IH].
  - cbn [app json_loop].
    destruct item as [| | | | |l|d]; try discriminate Hpair.
    + destruct l as [|x0 [|x1 l]]; try discriminate Hpair.
      cbn in Hpair. injection Hpair as -> ->.
      rewrite snd_append_validated, Hv. reflexivity.
    + cbn in Hpair. injection Hpair as <- <-.
      rewrite snd_append_validated, Hv. reflexivity.
  - cbn [app json_loop].
    destruct item0 as [| | | | |l|d]; try exact IH.
    + destruct l as [|x0 [|x1 l]]; try exact IH. apply Hstep. exact IH.
    + apply Hstep. exact IH.
Qed.

Lemma load_data_from_json_overflow fs filepath earlier item later r p :
  load_json fs filepath = Ok (VList (earlier ++ item :: later)) ->
  json_item_pair "revenue" "profit" item = Some (r, p) ->
  snd (validate r p) = Raise OverflowError ->
  snd (load_data_from_json validate fs filepath) = [] /\
  In (Err (ErrorReadingJson OverflowError))
     (fst (load_data_from_json validate fs filepath)).
Proof.
  intros Hload Hpair Hv. unfold load_data_from_json. rewrite Hload.
  pose proof (json_loop_overflow earlier item later r p Hpair Hv) as H.
  destruct (json_loop validate (earlier ++ item :: later)) as [evs res].
  simpl in H. subst res. simpl. split; [reflexivity|].
  apply in_or_app. right. left. reflexivity.
Qed.

End LoaderOverflow.

Lemma plain_validate_raises r p e :
  snd (Plain.validate_financial_data r p) = Raise e -> e = OverflowError.
Proof.
  unfold Plain.validate_financial_data.
  destruct (to_float r) as [rev|e0] eqn:Hr.
  - destruct (to_float p) as [prof|e0] eqn:Hp.
    + destruct (feqb (value rev) fzero); discriminate.
    + apply to_float_raises in Hp as [->|[->| ->]]; simpl;
        try discriminate. intros [= <-]. reflexivity.
  - apply to_float_raises in Hr as [->|[->| ->]]; simpl;
      try discriminate. intros [= <-]. reflexivity.
Qed.

Lemma tabulate_validate_raises r p e :
  snd (Tabulate.validate_financial_data r p) = Raise e -> e = OverflowError.
Proof.
  unfold Tabulate.validate_financial_data.
  destruct (to_float r) as [rev|e0] eqn:Hr.
  - destruct (to_float p) as [prof|e0] eqn:Hp; [discriminate|].
    apply to_float_raises in Hp as [->|[->| ->]]; simpl;
      try discriminate. intros [= <-]. reflexivity.
  - apply to_float_raises in Hr as [->|[->| ->]]; simpl;
      try discriminate. intros [= <-]. reflexivity.
Qed.

Lemma plain_validate_overflow r p :
  overflows r = true \/
  ((exists rev, to_float r = Ok rev) /\ overflows p = true) ->
  snd (Plain.validate_financial_data r p) = Raise OverflowError.
Proof.
  unfold Plain.validate_financial_data, overflows.
  intros [H|[[rev Hr] H]].
  - destruct (to_float r) as [|[]]; try discriminate. reflexivity.
  - rewrite Hr. destruct (to_float p) as [|[]]; try discriminate. reflexivity.
Qed.

Lemma tabulate_validate_overflow r p :
  overflows r = true \/
  ((exists rev, to_float r = Ok rev) /\ overflows p = true) ->
  snd (Tabulate.validate_financial_data r p) = Raise OverflowError.
Proof.
  unfold Tabulate.validate_financial_data, overflows.
  intros [H|[[rev Hr] H]].
  - destruct (to_float r) as [|[]]; try discriminate. reflexivity.
  - rewrite Hr. destruct (to_float p) as [|[]]; try discriminate. reflexivity.
Qed.

(** X19: in the plain and the tabulate script an int beyond the float
    range that [float] is called on loses the whole JSON file: the revenue
    value of an item, or its profit value when the revenue converts.  The
    loader prints the [OverflowError] on standard error and returns no
    data, the valid items before that item included. *)
Theorem json_loaders_drop_all_on_out_of_range_int
  fs filepath earlier item later r p :
  load_json fs filepath = Ok (VList (earlier ++ item :: later)) ->
  json_item_pair "revenue" "profit" item = Some (r, p) ->
  overflows r = true \/
  ((exists rev, to_float r = Ok rev) /\ overflows p = true) ->
  (snd (Plain.load_data_from_json fs filepath) = [] /\
   In (Script.Err (Script.ErrorReadingJson OverflowError))
      (fst (Plain.load_data_from_json fs filepath))) /\
  (snd (Tabulate.load_data_from_json fs filepath) = [] /\
   In (Script.Err (Script.ErrorReadingJson OverflowError))
      (fst (Tabulate.load_data_from_json fs filepath))).
Proof.
  intros Hload Hpair Hover. split.
  - apply (load_data_from_json_overflow _ plain_validate_raises
             fs filepath earlier item later r p Hload Hpair).
    apply plain_validate_overflow. exact Hover.
  - apply (load_data_from_json_overflow _ tabulate_validate_raises
             fs filepath earlier item later r p Hload Hpair).
    apply tabulate_validate_overflow. exact Hover.
Qed.

Lemma json_loaders_drop_all_on_out_of_range_int_witness :
  snd (Tabulate.load_data_from_json
         (json_world (VList ([VList [VInt 100; VInt 10]]
                               ++ VList [VInt (10 ^ 400); VInt 1] :: [])))
         "data.json")
  = [].
Proof.
  destruct (json_loaders_drop_all_on_out_of_range_int
              (json_world (VList ([VList [VInt 100; VInt 10]]
                                    ++ VList [VInt (10 ^ 400); VInt 1] :: [])))
              "data.json" [VList [VInt 100; VInt 10]]
              (VList [VInt (10 ^ 400); VInt 1]) [] (VInt (10 ^ 400)) (VInt 1))
    as [_ [H _]];
    [reflexivity|reflexivity|left; vm_compute; reflexivity|exact H].
Defined.

Lemma plain_loads_nonzero_revenue_witness :
  ~ In (Script.Out (Script.Row (Script.NInt 0) (Script.NInt 0) None))
       (fst (Plain.main empty_world None)).
Proof.
  apply (proj2 plain_loads_nonzero_revenue empty_world None).
Defined.
